(** * beautifhy.reader: comment nodes and the safe Hy reader

    A shallow embedding of [src/beautifhy/reader.py].  The module defines
    - [Comment], a [Keyword] subclass holding the text of a line comment;
    - [HySafeReader], a [HyReader] subclass whose handlers for ["#"] and
      [";"] return a symbol, respectively a [Comment], instead of running
      reader macros, respectively dropping the comment.

    Conventions.  A Python [str] is a [string]; a character is a code
    point below 256.  A [dict] is a [gmap].  A Python call that may raise
    returns an [outcome].  The parts of Python's data model the module
    relies on (method lookup along the MRO, [bool()], [==], [!=], [str()],
    [%]-formatting, [str.strip]) are written out below. *)

From Stdlib Require Import String Ascii ZArith List Bool Lia.
From stdpp Require Import base gmap strings list.

Local Open Scope string_scope.
Set Warnings "-register-all".

(** ** Exceptions and outcomes *)

Inductive exn :=
| TypeError (msg : string)
| ValueError (msg : string)
| AttributeError (msg : string)
| PrematureEndOfInput (msg : string) (line col : nat)
| LexException (msg : string) (line col : nat).

Inductive outcome (A : Type) :=
| Return (a : A)
| Raise (e : exn).
Arguments Return {A} a.
Arguments Raise {A} e.

Definition bind {A B} (m : outcome A) (k : A -> outcome B) : outcome B :=
  match m with
  | Return a => k a
  | Raise e => Raise e
  end.

Notation "'let*' x ':=' m 'in' k" := (bind m (fun x => k))
  (at level 10, x pattern, m at level 100, k at level 200).

(** ** Classes and values *)

(** The classes that occur: Python built-ins, the model classes imported
    from [hy.models], and [Comment], the one class this module adds. *)
Inductive pyclass :=
| cls_object | cls_NoneType | cls_NotImplementedType
| cls_int | cls_bool | cls_str | cls_tuple
| cls_Object | cls_Keyword | cls_Symbol | cls_Expression
| cls_Comment.

#[global] Instance pyclass_eq_dec : EqDecision pyclass.
Proof. solve_decision. Defined.

(** Direct base classes.  [class Comment(Keyword)] is line 14 of the
    source; the other entries are those of Python and [hy.models]. *)
Definition bases (c : pyclass) : list pyclass :=
  match c with
  | cls_object => []
  | cls_bool => [cls_int]
  | cls_Keyword => [cls_Object]
  | cls_Symbol => [cls_Object; cls_str]
  | cls_Expression => [cls_Object; cls_tuple]
  | cls_Comment => [cls_Keyword]
  | _ => [cls_object]
  end.

(** Method resolution order.  Every class here has a single chain of
    bases except [Symbol] and [Expression], whose linearisation is
    written out. *)
Fixpoint mro_chain (depth : nat) (c : pyclass) : list pyclass :=
  match depth with
  | 0 => [c]
  | S d =>
      match bases c with
      | [] => [c]
      | [b] => c :: mro_chain d b
      | b1 :: b2 :: _ => c :: b1 :: b2 :: [cls_object]
      end
  end.

Definition mro (c : pyclass) : list pyclass := mro_chain 4 c.

Definition issubclass (c d : pyclass) : bool := bool_decide (d ∈ mro c).

Inductive pyval :=
| PyNone
| PyNotImplemented
| PyBool (b : bool)
| PyInt (n : Z)
| PyStr (s : string)
| PyKeyword (name : string)
| PySymbol (name : string)
| PyExpression (items : list pyval)
| PyComment (name : string).

Definition type_of (v : pyval) : pyclass :=
  match v with
  | PyNone => cls_NoneType
  | PyNotImplemented => cls_NotImplementedType
  | PyBool _ => cls_bool
  | PyInt _ => cls_int
  | PyStr _ => cls_str
  | PyKeyword _ => cls_Keyword
  | PySymbol _ => cls_Symbol
  | PyExpression _ => cls_Expression
  | PyComment _ => cls_Comment
  end.

(** An object is a value at an address; [is] compares addresses. *)
Record pyobj := { addr : nat; val : pyval }.

Definition type (x : pyobj) : pyclass := type_of (val x).
Definition isinstance (x : pyobj) (c : pyclass) : bool := issubclass (type x) c.
Definition is_ (x y : pyobj) : bool := Nat.eqb (addr x) (addr y).

(** A method is a function together with the number of parameters of
    its [def]: calling it with another number of arguments raises
    [TypeError] before the body runs. *)
Inductive method :=
| Def1 (f : pyobj -> outcome pyval)
| Def2 (f : pyobj -> pyobj -> outcome pyval).

Definition call1 (m : method) (self : pyobj) : outcome pyval :=
  match m with
  | Def1 f => f self
  | Def2 _ => Raise (TypeError "missing 1 required positional argument")
  end.

Definition call2 (m : method) (self other : pyobj) : outcome pyval :=
  match m with
  | Def1 _ => Raise (TypeError "takes 1 positional argument but 2 were given")
  | Def2 f => f self other
  end.

(** ** Strings *)

Definition LF : ascii := "010"%char.
Definition newline : string := String LF "".

(** [fmt % arg] for a format with [%s] and [%%] directives and [str]
    arguments, the only form the source uses. *)
Fixpoint percent (fmt : string) (args : list string) : outcome string :=
  match fmt with
  | "" =>
      match args with
      | [] => Return ""
      | _ => Raise (TypeError "not all arguments converted during string formatting")
      end
  | String "%" (String "s" rest) =>
      match args with
      | a :: args' => let* r := percent rest args' in Return (a +:+ r)
      | [] => Raise (TypeError "not enough arguments for format string")
      end
  | String "%" (String "%" rest) =>
      let* r := percent rest args in Return (String "%" r)
  | String "%" _ => Raise (ValueError "unsupported format character")
  | String c rest => let* r := percent rest args in Return (String c r)
  end.

(** [self.name] *)
Definition getattr_name (self : pyobj) : outcome string :=
  match val self with
  | PyKeyword n | PySymbol n | PyComment n => Return n
  | _ => Raise (AttributeError "name")
  end.

(** ** class Comment(Keyword) *)

Module Comment.

(** [def __str__(self): return ";%s\n" % self.name] *)
Definition __str__ : method :=
  Def1 (fun self =>
          let* name := getattr_name self in
          let* s := percent (";%s" +:+ newline) [name] in
          Return (PyStr s)).

(** [def __eq__(self, other): return False] *)
Definition __eq__ : method := Def2 (fun self other => Return (PyBool false)).

(** [def __ne__(self, other): return True] *)
Definition __ne__ : method := Def2 (fun self other => Return (PyBool true)).

(** [def __bool__(self, other): return False] *)
Definition __bool__ : method := Def2 (fun self other => Return (PyBool false)).

(** The methods the class body defines that the operators below look
    up ([__repr__] and [__hash__] are not used by them). *)
Definition class_dict (m : string) : option method :=
  if String.eqb m "__str__" then Some __str__
  else if String.eqb m "__eq__" then Some __eq__
  else if String.eqb m "__ne__" then Some __ne__
  else if String.eqb m "__bool__" then Some __bool__
  else None.

End Comment.

(** ** Operators of the data model *)

Inductive cmpop := Eq_ | Ne_.

Definition dunder (op : cmpop) : string :=
  match op with Eq_ => "__eq__" | Ne_ => "__ne__" end.

Section DataModel.

(** Methods of the classes defined outside this repository. *)
Variable lib_methods : pyclass -> string -> option method.

Definition class_dict (c : pyclass) (m : string) : option method :=
  match c with
  | cls_Comment => Comment.class_dict m
  | _ => lib_methods c m
  end.

Fixpoint lookup_along (l : list pyclass) (m : string) : option method :=
  match l with
  | [] => None
  | c :: l' =>
      match class_dict c m with
      | Some f => Some f
      | None => lookup_along l' m
      end
  end.

(** Special methods are looked up on the type, along its MRO. *)
Definition find_method (c : pyclass) (m : string) : option method :=
  lookup_along (mro c) m.

(** [bool(x)]: [__bool__] if the type has one, else [__len__], else true. *)
Definition truth (x : pyobj) : outcome bool :=
  match find_method (type x) "__bool__" with
  | Some m =>
      let* r := call1 m x in
      match r with
      | PyBool b => Return b
      | _ => Raise (TypeError "__bool__ should return bool")
      end
  | None =>
      match find_method (type x) "__len__" with
      | Some m =>
          let* r := call1 m x in
          match r with
          | PyInt n =>
              if (n <? 0)%Z then Raise (ValueError "__len__() should return >= 0")
              else Return (negb (n =? 0)%Z)
          | _ => Raise (TypeError "object cannot be interpreted as an integer")
          end
      | None => Return true
      end
  end.

(** One attempt of a comparison method; a missing method counts as
    [NotImplemented]. *)
Definition try_compare (op : cmpop) (x y : pyobj) : outcome pyval :=
  match find_method (type x) (dunder op) with
  | Some m => call2 m x y
  | None => Return PyNotImplemented
  end.

Definition is_NotImplemented (v : pyval) : bool :=
  match v with PyNotImplemented => true | _ => false end.

(** [v == w] and [v != w]: the right operand goes first when its type
    is a proper subclass of the left one's; then the left operand;
    then the right one if not tried yet; then identity. *)
Definition richcompare (op : cmpop) (v w : pyobj) : outcome pyval :=
  let reflected_first :=
    negb (bool_decide (type v = type w)) && issubclass (type w) (type v) in
  let* r1 := if reflected_first then try_compare op w v else Return PyNotImplemented in
  if negb (is_NotImplemented r1) then Return r1 else
  let* r2 := try_compare op v w in
  if negb (is_NotImplemented r2) then Return r2 else
  let* r3 := if reflected_first then Return PyNotImplemented else try_compare op w v in
  if negb (is_NotImplemented r3) then Return r3 else
  match op with
  | Eq_ => Return (PyBool (is_ v w))
  | Ne_ => Return (PyBool (negb (is_ v w)))
  end.

(** [str(x)] *)
Definition str (x : pyobj) : outcome string :=
  match val x with
  | PyStr s => Return s
  | _ =>
      match find_method (type x) "__str__" with
      | Some m =>
          let* r := call1 m x in
          match r with
          | PyStr s => Return s
          | _ => Raise (TypeError "__str__ returned non-string")
          end
      | None => Raise (AttributeError "__str__")
      end
  end.

(** [Comment(value)], the state of the new object:
    [def __init__(self, value): self.name = str(value)] *)
Definition Comment__init__ (value : pyobj) : outcome pyval :=
  let* name := str value in
  Return (PyComment name).

End DataModel.

(** A text, and a comment, as objects at an address. *)
Definition text (a : nat) (t : string) : pyobj := {| addr := a; val := PyStr t |}.
Definition comment_at (a : nat) (t : string) : pyobj := {| addr := a; val := PyComment t |}.


(** * The reader *)

(** ** Characters *)

(** [str.isspace] on a code point below 256: the characters
    [str.strip()] removes. *)
Definition isspace (c : ascii) : bool :=
  let n := N_of_ascii c in
  ((9 <=? n) && (n <=? 13) || (28 <=? n) && (n <=? 32) || (n =? 133) || (n =? 160))%N.

Fixpoint lstrip (s : string) : string :=
  match s with
  | "" => ""
  | String c s' => if isspace c then lstrip s' else s
  end.

Definition rstrip (s : string) : string := String.rev (lstrip (String.rev s)).

(** [s.strip()] *)
Definition strip (s : string) : string := rstrip (lstrip s).

(** Truth value of a [str]: non-empty. *)
Definition nonempty (s : string) : bool := negb (String.eqb s "").

(** ** Reader state *)

(** The part of a reader that reading changes: the characters not yet
    consumed and the position (line, column) of the last character
    consumed. *)
Record cursor := { _stream : string; _pos : nat * nat }.

(** Handlers are named, so that tables of handlers are plain data. *)
Inductive handler :=
| h_HyReader_tag_dispatch            (* HyReader.tag_dispatch *)
| h_HyReader (method : string)       (* any other method of HyReader *)
| h_tag_dispatch                     (* HySafeReader.tag_dispatch *)
| h_line_comment                     (* HySafeReader.line_comment *)
| h_macro (name : string).           (* a reader macro registered in the process *)

(** The part of a reader that construction fixes: [self.reader_table]
    and [self.reader_macros]. *)
Record Reader := {
  reader_table : gmap string handler;
  reader_macros : gmap string handler
}.

(** A method on [self] that reads: it sees the reader, moves the cursor
    and returns or raises. *)
Definition action (A : Type) : Type := Reader -> cursor -> outcome (A * cursor).

Definition ret {A} (a : A) : action A := fun _ cur => Return (a, cur).

Definition raise_from_reader {A} (mk : string -> nat -> nat -> exn) (msg : string) : action A :=
  fun _ cur => Raise (mk msg (fst (_pos cur)) (snd (_pos cur))).

Definition bind_action {A B} (m : action A) (k : A -> action B) : action B :=
  fun self cur =>
    match m self cur with
    | Return (a, cur') => k a self cur'
    | Raise e => Raise e
    end.

Notation "'do' x '<-' m ';' k" := (bind_action m (fun x => k))
  (at level 10, x name, m at level 100, k at level 200).

(** ** Primitives of the base reader *)

Definition advance (p : nat * nat) (c : ascii) : nat * nat :=
  if Ascii.eqb c LF then (S (fst p), 0) else (fst p, S (snd p)).

(** Modelled from the spec: [peekc], the next character without
    consuming it, the empty string when the stream is exhausted. *)
Definition peekc : action string :=
  fun _ cur =>
    match _stream cur with
    | "" => Return ("", cur)
    | String c _ => Return (String c "", cur)
    end.

(** Modelled from the spec: [getc], which consumes one character and
    advances the stream cursor (line and column) past it. *)
Definition getc : action string :=
  fun _ cur =>
    match _stream cur with
    | "" => Return ("", cur)
    | String c rest =>
        Return (String c "", {| _stream := rest; _pos := advance (_pos cur) c |})
    end.

(** The cursor after consuming the characters of [s]. *)
Fixpoint consume (s : string) (cur : cursor) : cursor :=
  match s with
  | "" => cur
  | String _ s' =>
      match _stream cur with
      | "" => cur
      | String c rest => consume s' {| _stream := rest; _pos := advance (_pos cur) c |}
      end
  end.

Fixpoint take_while (p : ascii -> bool) (s : string) : string :=
  match s with
  | "" => ""
  | String c s' => if p c then String c (take_while p s') else ""
  end.

Fixpoint all_chars (p : ascii -> bool) (s : string) : bool :=
  match s with
  | "" => true
  | String c s' => p c && all_chars p s'
  end.

(** Modelled from the spec: the whitespace the read loop skips between
    forms (a newline is left to it by [line_comment]). *)
Definition slurp_space (cur : cursor) : cursor :=
  consume (take_while isspace (_stream cur)) cur.

(** ** Handlers of the base grammar

    A handler of the base grammar reads from the cursor it is given and
    may ask the reader to parse one form at a cursor of its choice
    (nested forms), any number of times, before it returns or raises.
    It is a resumption: either finished, or a request to the read loop
    with a continuation for the answer. *)
Definition parsed : Type := outcome (option pyval * cursor).

Inductive prog :=
| Done (r : parsed)
| ParseOne (cur : cursor) (k : parsed -> prog).

(** Running a handler, given the read loop to answer its requests;
    [None] when the loop runs out of fuel. *)
Fixpoint exec (parse_one : cursor -> option parsed) (p : prog) : option parsed :=
  match p with
  | Done r => Some r
  | ParseOne cur k =>
      match parse_one cur with
      | None => None
      | Some r => exec parse_one (k r)
      end
  end.

(** The introducer characters looked up while a handler runs. *)
Fixpoint exec_keys (parse_one : cursor -> option parsed)
    (keys_one : cursor -> list string) (p : prog) : list string :=
  match p with
  | Done _ => []
  | ParseOne cur k =>
      keys_one cur ++
      match parse_one cur with
      | None => []
      | Some r => exec_keys parse_one keys_one (k r)
      end
  end.

(** [tag[0] == "#" and tag[1:]]: a table entry for a reader macro. *)
Definition is_macro_tag (tag : string) : bool :=
  match tag with
  | String "#" (String _ _) => true
  | _ => false
  end.

(** [tag[1:]] *)
Definition tag_name (tag : string) : string :=
  match tag with
  | "" => ""
  | String _ s => s
  end.

(** Modelled from the spec: the constructor of the base reader,
    [HyReader.__init__(self, *, use_current_readers=False)], for an
    instance of a class whose table of registered handlers is
    [DEFAULT_TABLE].  The instance's reader table is a copy of that
    table; building it registers the entries for reader macros in
    [reader_macros]; the handlers currently registered in the process
    are added when [use_current_readers] is set.  Any other keyword
    argument is a [TypeError]. *)
Definition HyReader__init__ (DEFAULT_TABLE current_readers : gmap string handler)
    (use_current_readers : bool) (kwargs : gmap string pyval) : outcome Reader :=
  match map_to_list kwargs with
  | _ :: _ => Raise (TypeError "__init__() got an unexpected keyword argument")
  | [] =>
      let table := DEFAULT_TABLE in
      let moved := filter (fun kv => Is_true (is_macro_tag kv.1)) table in
      let macros : gmap string handler :=
        list_to_map (prod_map tag_name id <$> map_to_list moved) in
      Return {| reader_table := filter (fun kv => ¬ Is_true (is_macro_tag kv.1)) table;
                reader_macros := if use_current_readers then current_readers ∪ macros
                                 else macros |}
  end.

(** ** The base reader as an interface

    [HySafeReader] extends [hy.reader.HyReader] and calls its methods;
    the library is imported, not part of this repository.  What the
    development does not fix about it is collected here, and every
    result holds for each instance. *)
Class HyLibrary := {
  (** methods of the classes defined outside this repository *)
  lib_methods : pyclass -> string -> option method;
  (** the identifier-scanning rule: the characters that end an
      identifier *)
  ends_ident : ascii -> bool;
  (** what [read_chars_until] does in f-string mode *)
  read_fstring_chars : (string -> bool) -> string -> action string;
  (** which names [hy.models.Symbol] accepts when it validates *)
  legal_symbol : string -> bool;
  (** the handlers [HyReader] registers with [reader_for], by tag,
      other than the one for ["#"] *)
  grammar : gmap string string;
  (** what the methods of the base grammar do *)
  HyReader_method : string -> string -> cursor -> prog;
  (** [HyReader.tag_dispatch], which consults [self.reader_macros] *)
  HyReader_tag_dispatch : gmap string handler -> string -> cursor -> prog;
  (** the code of the reader macros registered in the process *)
  macro_code : string -> string -> cursor -> prog;
  (** [read_default], for a character without a handler *)
  read_default : string -> cursor -> prog
}.

Section BaseReader.

Context `{HyLibrary}.

Definition ident_char (c : ascii) : bool := negb (ends_ident c).

(** Modelled from the spec: [read_ident], which reads the longest
    identifier-shaped token at the cursor (possibly empty). *)
Definition read_ident : action string :=
  fun _ cur =>
    let ident := take_while ident_char (_stream cur) in
    Return (ident, consume ident cur).

(** Modelled from the spec: [read_chars_until closing prefix is_fstring],
    the raw-character-accumulation primitive.  With [is_fstring] false
    it accumulates characters until, and not including, the first one
    for which [closing] holds or the end of the stream; the closing
    character is left in the stream. *)
Definition read_chars_until (closing : string -> bool) (prefix : string)
    (is_fstring : bool) : action string :=
  if is_fstring then read_fstring_chars closing prefix
  else fun _ cur =>
    let s := take_while (fun c => negb (closing (String c ""))) (_stream cur) in
    Return (s, consume s cur).

(** Modelled from the spec: [Symbol(name, from_parser)]; a symbol
    tagged as coming from the parser is taken as it is. *)
Definition Symbol (name : string) (from_parser : bool) : outcome pyval :=
  if from_parser || legal_symbol name then Return (PySymbol name)
  else Raise (ValueError "Syntactically illegal symbol").

Definition lift {A} (m : outcome A) : action A :=
  fun _ cur => match m with Return a => Return (a, cur) | Raise e => Raise e end.

(** ** class HySafeReader(HyReader) *)

(** [@reader_for("#") def tag_dispatch(self, key)] *)
Definition tag_dispatch (key : string) : action pyval :=
  do c <- peekc;
  if negb (nonempty (strip c)) then
    raise_from_reader PrematureEndOfInput
      "Premature end of input while attempting dispatch"
  else
    do ident <- (do i <- read_ident; if nonempty i then ret i else getc);
    lift (Symbol ("#" +:+ ident) true).

(** [def comment_closing(c): return c == "\n"] *)
Definition comment_closing (c : string) : bool := String.eqb c newline.

(** [@reader_for(";") def line_comment(self, _)] *)
Definition line_comment (_key : string) : action pyval :=
  do s <- read_chars_until comment_closing ";" false;
  lift (Comment__init__ lib_methods (text 0 s)).

(** ** The reader tables *)

(** [HyReader.DEFAULT_TABLE]. *)
Definition HyReader_DEFAULT_TABLE : gmap string handler :=
  <["#" := h_HyReader_tag_dispatch]> (h_HyReader <$> grammar).

(** [HySafeReader.DEFAULT_TABLE]: the two [reader_for] registrations
    in the class body. *)
Definition HySafeReader_DEFAULT_TABLE : gmap string handler :=
  <["#" := h_tag_dispatch]> (<[";" := h_line_comment]> ∅).

(** The first two statements of [HySafeReader.__init__]: the reader
    as the call of the base constructor leaves it. *)
Definition HySafeReader_super__init__ (current_readers : gmap string handler)
    (kwargs : gmap string pyval) : outcome Reader :=
  (* kwargs.pop('use_current_readers', None) *)
  let kwargs := delete "use_current_readers" kwargs in
  (* super().__init__(use_current_readers=False, **kwargs) *)
  HyReader__init__ HySafeReader_DEFAULT_TABLE current_readers false kwargs.

(** [HySafeReader.__init__(self, **kwargs)], in a process where
    [current_readers] are registered. *)
Definition HySafeReader__init__ (current_readers : gmap string handler)
    (kwargs : gmap string pyval) : outcome Reader :=
  let* self := HySafeReader_super__init__ current_readers kwargs in
  (* parent_table = HyReader.DEFAULT_TABLE.copy() *)
  let parent_table := HyReader_DEFAULT_TABLE in
  (* parent_table.update(self.reader_table) *)
  let parent_table := reader_table self ∪ parent_table in
  (* self.reader_table = parent_table *)
  let self := {| reader_table := parent_table; reader_macros := reader_macros self |} in
  (* self.reader_macros.clear() *)
  Return {| reader_table := reader_table self; reader_macros := ∅ |}.

(** ** The read loop *)

Definition run (a : action pyval) (self : Reader) (cur : cursor) : parsed :=
  match a self cur with
  | Return (v, cur') => Return (Some v, cur')
  | Raise e => Raise e
  end.

Definition handler_prog (self : Reader) (h : handler) (key : string) (cur : cursor) : prog :=
  match h with
  | h_HyReader_tag_dispatch => HyReader_tag_dispatch (reader_macros self) key cur
  | h_HyReader m => HyReader_method m key cur
  | h_tag_dispatch => Done (run (tag_dispatch key) self cur)
  | h_line_comment => Done (run (line_comment key) self cur)
  | h_macro name => macro_code name key cur
  end.

(** [handler = self.reader_table.get(c);
     handler(self, c) if handler else self.read_default(c)] *)
Definition dispatch (self : Reader) (key : string) (cur : cursor) : prog :=
  match reader_table self !! key with
  | Some h => handler_prog self h key cur
  | None => read_default key cur
  end.

(** Modelled from the spec: the read loop of the base reader, one form.
    It skips whitespace, reads the introducer character and calls its
    handler from the reader table; a handler may return no node. *)
Fixpoint try_parse_one_form (fuel : nat) (self : Reader) (cur : cursor) : option parsed :=
  match fuel with
  | 0 => None
  | S n =>
      let cur := slurp_space cur in
      match _stream cur with
      | "" =>
          Some (Raise (PrematureEndOfInput
                         "Premature end of input while attempting to parse one form"
                         (fst (_pos cur)) (snd (_pos cur))))
      | String c rest =>
          exec (try_parse_one_form n self)
               (dispatch self (String c "")
                         {| _stream := rest; _pos := advance (_pos cur) c |})
      end
  end.

(** Modelled from the spec: the read loop, one node at a time until the
    end of the stream.  The result is the nodes yielded and the error
    that ended the sequence, if any. *)
Fixpoint parse_forms (fuel : nat) (self : Reader) (cur : cursor)
    : option (list pyval * option exn) :=
  match fuel with
  | 0 => None
  | S n =>
      let cur := slurp_space cur in
      match _stream cur with
      | "" => Some ([], None)
      | _ =>
          match try_parse_one_form n self cur with
          | None => None
          | Some (Raise e) => Some ([], Some e)
          | Some (Return (model, cur')) =>
              match parse_forms n self cur' with
              | None => None
              | Some (models, e) =>
                  Some (match model with Some m => m :: models | None => models end, e)
              end
          end
      end
  end.

Definition start (text : string) : cursor := {| _stream := text; _pos := (1, 0) |}.

(** [self.parse(stream)] *)
Definition parse (fuel : nat) (self : Reader) (text : string)
    : option (list pyval * option exn) :=
  parse_forms fuel self (start text).

(** Constructing a [HySafeReader] and reading a text with it. *)
Definition safe_read (current_readers : gmap string handler) (kwargs : gmap string pyval)
    (fuel : nat) (text : string) : outcome (option (list pyval * option exn)) :=
  let* self := HySafeReader__init__ current_readers kwargs in
  Return (parse fuel self text).

(** The introducer characters looked up in the reader table while
    reading: those that occur outside of the spans a handler reads by
    itself (strings, identifiers and other literals). *)
Fixpoint introducers_one (fuel : nat) (self : Reader) (cur : cursor) : list string :=
  match fuel with
  | 0 => []
  | S n =>
      let cur := slurp_space cur in
      match _stream cur with
      | "" => []
      | String c rest =>
          String c "" ::
          exec_keys (try_parse_one_form n self) (introducers_one n self)
                    (dispatch self (String c "")
                              {| _stream := rest; _pos := advance (_pos cur) c |})
      end
  end.

Fixpoint introducers (fuel : nat) (self : Reader) (cur : cursor) : list string :=
  match fuel with
  | 0 => []
  | S n =>
      let cur := slurp_space cur in
      match _stream cur with
      | "" => []
      | _ =>
          introducers_one n self cur ++
          match try_parse_one_form n self cur with
          | Some (Return (_, cur')) => introducers n self cur'
          | _ => []
          end
      end
  end.

End BaseReader.

(** ** Notions used to state the properties *)

Section Notions.

Context `{HyLibrary}.

Definition dispatch_message : string :=
  "Premature end of input while attempting dispatch".

(** The token [tag_dispatch] reads at a cursor whose next character is
    [c]: the identifier there, or [c] alone when there is none. *)
Definition dispatch_token (cur : cursor) (c : ascii) : string :=
  let ident := take_while ident_char (_stream cur) in
  if nonempty ident then ident else String c "".

(** The stream is exhausted or its next character is whitespace. *)
Definition at_end_or_space (cur : cursor) : bool :=
  match _stream cur with
  | "" => true
  | String c _ => isspace c
  end.

(** A sequence of nodes with one more node in front. *)
Definition preceded_by (m : pyval) (r : option (list pyval * option exn))
    : option (list pyval * option exn) :=
  match r with
  | None => None
  | Some (models, e) => Some (m :: models, e)
  end.

Definition not_newline (c : ascii) : bool := negb (Ascii.eqb c LF).

(** The reader a call of [HySafeReader] returns when it returns. *)
Definition safe_instance : Reader :=
  {| reader_table := HySafeReader_DEFAULT_TABLE ∪ HyReader_DEFAULT_TABLE;
     reader_macros := ∅ |}.

Definition option_name : string := "use_current_readers".

(** Two readers call the same handler, with the same effect, for every
    introducer character other than ["#"] and [";"]. *)
Definition same_off_overrides (r1 r2 : Reader) : Prop :=
  ∀ (c : ascii) (cur : cursor),
    String c "" ≠ "#" -> String c "" ≠ ";" ->
    dispatch r2 (String c "") cur = dispatch r1 (String c "") cur.

End Notions.

(** ** An instance: a small base grammar

    Symbols, decimal integers, parenthesised forms and line comments,
    with hy's rule for the end of an identifier. *)

Definition NON_IDENT (c : ascii) : bool :=
  existsb (Ascii.eqb c)
          ["("; ")"; "["; "]"; "{"; "}"; ";"; "034"; "'"; "`"; "~"]%char.

Definition is_digit (c : ascii) : bool :=
  ((48 <=? N_of_ascii c) && (N_of_ascii c <=? 57))%N.

Fixpoint digits_value (acc : Z) (s : string) : Z :=
  match s with
  | "" => acc
  | String c s' => digits_value (10 * acc + Z.of_N (N_of_ascii c) - 48)%Z s'
  end.

Definition atom (ident : string) : pyval :=
  if all_chars is_digit ident then PyInt (digits_value 0 ident) else PySymbol ident.

Definition small_read_default (key : string) (cur : cursor) : prog :=
  let rest := take_while (fun c => negb (NON_IDENT c || isspace c)) (_stream cur) in
  Done (Return (Some (atom (key +:+ rest)), consume rest cur)).

Fixpoint small_forms_until_paren (n : nat) (acc : list pyval) (cur : cursor) : prog :=
  match n with
  | 0 => Done (Raise (LexException "form too long" (fst (_pos cur)) (snd (_pos cur))))
  | S n' =>
      let cur := slurp_space cur in
      match _stream cur with
      | "" =>
          Done (Raise (PrematureEndOfInput
                         "Premature end of input while attempting to parse one form"
                         (fst (_pos cur)) (snd (_pos cur))))
      | String c rest =>
          if Ascii.eqb c ")" then
            Done (Return (Some (PyExpression acc),
                          {| _stream := rest; _pos := advance (_pos cur) c |}))
          else
            ParseOne cur (fun r =>
              match r with
              | Return (Some m, cur') => small_forms_until_paren n' (acc ++ [m]) cur'
              | Return (None, cur') => small_forms_until_paren n' acc cur'
              | Raise e => Done (Raise e)
              end)
      end
  end.

Definition small_method (name key : string) (cur : cursor) : prog :=
  if String.eqb name "paren" then
    small_forms_until_paren (S (String.length (_stream cur))) [] cur
  else if String.eqb name "line_comment" then
    Done (Return (None, consume (take_while (fun c => negb (Ascii.eqb c LF)) (_stream cur)) cur))
  else
    Done (Raise (LexException "Ran into a closing delimiter"
                              (fst (_pos cur)) (snd (_pos cur)))).

(** Dispatch that runs a registered reader macro: the node it yields
    records which macro ran. *)
Definition small_tag_dispatch (macros : gmap string handler) (key : string)
    (cur : cursor) : prog :=
  let ident := take_while (fun c => negb (NON_IDENT c || isspace c)) (_stream cur) in
  match macros !! ident with
  | Some _ => Done (Return (Some (PyExpression [PySymbol "ran"; PySymbol ident]),
                            consume ident cur))
  | None => Done (Raise (LexException "reader macro is not defined"
                                      (fst (_pos cur)) (snd (_pos cur))))
  end.

Definition small_grammar : gmap string string :=
  <["(" := "paren"]> (<[")" := "INVALID"]> (<[";" := "line_comment"]>
  (<["#_" := "discard"]> ∅))).

Definition small_hy : HyLibrary := {|
  lib_methods := fun _ _ => None;
  ends_ident := fun c => NON_IDENT c || isspace c;
  read_fstring_chars := fun _ _ _ cur => Return ("", cur);
  legal_symbol := fun _ => true;
  grammar := small_grammar;
  HyReader_method := small_method;
  HyReader_tag_dispatch := small_tag_dispatch;
  macro_code := fun _ _ cur => Done (Return (None, cur));
  read_default := small_read_default
|}.

(** The readers of the instance, built with no options in a process
    where a reader macro [foo] is registered. *)
Definition small_registry : gmap string handler := <["foo" := h_macro "foo"]> ∅.

Definition small_safe_reader : Reader :=
  match @HySafeReader__init__ small_hy small_registry ∅ with
  | Return self => self
  | Raise _ => {| reader_table := ∅; reader_macros := ∅ |}
  end.

Definition small_base_reader : Reader :=
  match HyReader__init__ (@HyReader_DEFAULT_TABLE small_hy) small_registry true ∅ with
  | Return self => self
  | Raise _ => {| reader_table := ∅; reader_macros := ∅ |}
  end.

(** ** Reading without extension code *)

(** The same library with other code for [HyReader.tag_dispatch] and
    for the reader macros registered in the process. *)
Definition with_extensions (H : HyLibrary)
    (dispatch_code : gmap string handler -> string -> cursor -> prog)
    (macros_code : string -> string -> cursor -> prog) : HyLibrary := {|
  lib_methods := @lib_methods H;
  ends_ident := @ends_ident H;
  read_fstring_chars := @read_fstring_chars H;
  legal_symbol := @legal_symbol H;
  grammar := @grammar H;
  HyReader_method := @HyReader_method H;
  HyReader_tag_dispatch := dispatch_code;
  macro_code := macros_code;
  read_default := @read_default H
|}.

(** * beautifhy.repl

    The functions of [src/beautifhy/repl.py] that compute: the guess of
    a language from a file name, the traceback hook and the bridge to
    the completer.  Calls into [pygments], [traceback] and the Hy
    completer are parameters. *)

(** ** File names *)

(** The part of [p] after its last slash, if it has one. *)
Fixpoint after_last_slash (p : string) : option string :=
  match p with
  | "" => None
  | String c p' =>
      match after_last_slash p' with
      | Some r => Some r
      | None => if Ascii.eqb c "/" then Some p' else None
      end
  end.

(** [os.path.basename(p)] on POSIX: [p[p.rfind("/") + 1:]]. *)
Definition basename (p : string) : string :=
  match after_last_slash p with
  | Some r => r
  | None => p
  end.

Definition not_slash (c : ascii) : bool := negb (Ascii.eqb c "/").
Definition not_dot (c : ascii) : bool := negb (Ascii.eqb c ".").

(** [s.endswith(suffix)] *)
Definition endswith (s suffix : string) : bool :=
  Nat.leb (String.length suffix) (String.length s)
  && String.eqb (substring (String.length s - String.length suffix)
                           (String.length suffix) s) suffix.

(** The names the [match] statement tests for, with the language each
    [case] returns. *)
Definition lang_cases : list (string * string) :=
  [("py", "python"); ("hy", "hylang"); ("pytb", "pytb"); ("py3tb", "py3tb")].

(** [_get_lang_from_filename(filename)]: the subject of the [match] is
    [os.path.basename(filename)]; when no [case] matches the function
    returns Python's [None], here [None]. *)
Definition _get_lang_from_filename (filename : string) : option string :=
  let subject := basename filename in
  if String.eqb subject "py" then Some "python"
  else if String.eqb subject "hy" then Some "hylang"
  else if String.eqb subject "pytb" then Some "pytb"
  else if String.eqb subject "py3tb" then Some "py3tb"
  else None.

(** ** The traceback hook *)

(** A traceback object: [tb_frame.f_code.co_filename] and [tb_lineno];
    the chain of [tb_next] is a list, [None] the empty one. *)
Record frame := { co_filename : string; tb_lineno : Z }.

(** [source.split]: only a [str] has the attribute. *)
Definition getattr_split (source : pyval) : outcome (string -> list string) :=
  match source with
  | PyStr s =>
      Return (fun sep =>
                (fix go (acc : string) (l : list ascii) : list string :=
                   match l with
                   | [] => [String.rev acc]
                   | c :: l' =>
                       if String.eqb (String c "") sep then String.rev acc :: go "" l'
                       else go (String c acc) l'
                   end) "" (list_ascii_of_string s))
  | _ => Raise (AttributeError "'NoneType' object has no attribute 'split'")
  end.

Section ExceptionHook.

(** Exception classes and values. *)
Variable exc : Type.

(** [open(filename, "r")] followed by [f.read()]: the text of the file,
    or what opening or reading raised. *)
Variable read : string -> outcome string.

(** [traceback.format_exception(exc_type, exc_value, tb, limit=limit)] *)
Variable format_exception : exc -> exc -> list frame -> Z -> list string.

(** [highlight(text, PythonTracebackLexer(),
               TerminalFormatter(bg=bg, stripall=True))] *)
Variable highlight : string -> string -> string.

(** The statements of the source branch after [source.split] is looked
    up: slicing the lines, the [pygments] calls and the three writes;
    given the language, the bound [split], the frame, [bg],
    [lines_around], [linenos] and what [sys.stderr] holds. *)
Variable show_source :
  string -> (string -> list string) -> frame -> string -> Z -> bool ->
  list string -> list string * outcome unit.

(** [def _read_file(filename)]: the text read is dropped; the function
    has no [return] and so returns [None]. *)
Definition _read_file (filename : string) : outcome pyval :=
  let* _ := read filename in
  Return PyNone.

(** [lang and (not any(map(filename.endswith, ignore)))] *)
Definition selected (ignore : list string) (fr : frame) : bool :=
  match _get_lang_from_filename (co_filename fr) with
  | Some lang => nonempty lang && negb (existsb (endswith (co_filename fr)) ignore)
  | None => false
  end.

(** The [while _tb:] loop; [sys.stderr] is the list of the texts
    written to it. *)
Fixpoint source_loop (bg : string) (lines_around : Z) (linenos : bool)
    (ignore : list string) (_tb : list frame) (stderr : list string)
    : list string * outcome unit :=
  match _tb with
  | [] => (stderr, Return tt)
  | fr :: tb_next =>
      let filename := co_filename fr in
      match _get_lang_from_filename filename with
      | Some lang =>
          if nonempty lang && negb (existsb (endswith filename) ignore) then
            match _read_file filename with
            | Raise e => (stderr, Raise e)
            | Return source =>
                match getattr_split source with
                | Raise e => (stderr, Raise e)
                | Return split =>
                    show_source lang split fr bg lines_around linenos stderr
                end
            end
          else source_loop bg lines_around linenos ignore tb_next stderr
      | None => source_loop bg lines_around linenos ignore tb_next stderr
      end
  end.

(** [def _exception_hook(exc_type, exc_value, tb, *, bg, limit,
    lines_around, linenos, ignore)]: what [sys.stderr] holds afterwards
    and the value returned, that of the last [write], or the exception. *)
Definition _exception_hook (exc_type exc_value : exc) (tb : list frame)
    (bg : string) (limit lines_around : Z) (linenos : bool) (ignore : list string)
    (stderr : list string) : list string * outcome Z :=
  match source_loop bg lines_around linenos ignore tb stderr with
  | (stderr, Raise e) => (stderr, Raise e)
  | (stderr, Return _) =>
      let fexc := format_exception exc_type exc_value tb limit in
      let out := highlight (String.concat "" fexc) bg in
      ((stderr ++ [out])%list, Return (Z.of_nat (String.length out)))
  end.

End ExceptionHook.

(** ** The completer bridge *)

(** [Completion(text, start_position=...)] *)
Record Completion := { completion_text : string; start_position : Z }.

Section Completer.

(** [self.c.complete(word, state)], [None] for Python's [None]. *)
Variable complete : string -> nat -> option string.

(** [HyPTCompleter.get_completions], from the [while True:] on, for the
    [word] before the cursor: the completions yielded until the
    generator ends, [None] when it has not ended within [fuel]
    iterations. *)
Fixpoint completions_from (fuel : nat) (word : string) (state : nat)
    : option (list Completion) :=
  match fuel with
  | 0 => None
  | S fuel' =>
      match complete word state with
      | None => Some []
      | Some m =>
          match completions_from fuel' word (S state) with
          | None => None
          | Some l =>
              Some ({| completion_text := m;
                       start_position := - Z.of_nat (String.length word) |} :: l)
          end
      end
  end.

Definition get_completions (fuel : nat) (word : string) : option (list Completion) :=
  completions_from fuel word 0.

End Completer.

(** ** The completer's namespace *)

(** Dictionaries live in a store, by address: a [dict] passed around is
    its address, and two names for one address see each other's
    updates. *)
Abbreviation store := (gmap nat (gmap string pyval)).

(** [d or {}] for a dictionary [d]: a dictionary is true when it has
    an entry. *)
Definition dict_truth (d : gmap string pyval) : bool :=
  match map_to_list d with
  | [] => false
  | _ :: _ => true
  end.

(** [HyPTCompleter.__init__(self, namespace=None)]: the store
    afterwards and the address of [self.namespace].  [namespace] is
    [None] or the address of a dictionary; [{}] is a new dictionary at
    an unused address.  [Completer__init__] is what constructing
    [hy_completer.Completer] does to the dictionary it is given, in
    which the library registers keys of its own. *)
Definition HyPTCompleter__init__ (Completer__init__ : gmap string pyval -> gmap string pyval)
    (h : store) (namespace : option nat) : store * nat :=
  let new := fresh (dom h) in
  (* self.namespace = namespace or {} *)
  let '(h, self_namespace) :=
    match namespace with
    | None => (<[new := ∅]> h, new)
    | Some a =>
        match h !! a with
        | Some d => if dict_truth d then (h, a) else (<[new := ∅]> h, new)
        | None => (<[new := ∅]> h, new)
        end
    end in
  (* self.c = hy_completer.Completer(self.namespace) *)
  (alter Completer__init__ self_namespace h, self_namespace).

(** [namespace[key] = value] for the dictionary at address [a]. *)
Definition store_setitem (h : store) (a : nat) (key : string) (value : pyval) : store :=
  match h !! a with
  | Some d => <[a := <[key := value]> d]> h
  | None => h
  end.

(** [namespace.get(key)] for the dictionary at address [a]. *)
Definition store_get (h : store) (a : nat) (key : string) : option pyval :=
  match h !! a with
  | Some d => d !! key
  | None => None
  end.

(** ** Instances for the examples *)

Definition small_read (filename : string) : outcome string :=
  if String.eqb filename "/usr/bin/py" then Return "print(1)"
  else Raise (AttributeError "no such file").

Definition small_complete (word : string) (state : nat) : option string :=
  nth_error [word +:+ "rint"; word +:+ "roperty"] state.

(** * Properties *)

Section CommentProperties.

Context (lib_methods : pyclass -> string -> option method).

Lemma Comment_construct (b : nat) (t : string) :
  Comment__init__ lib_methods (text b t) = Return (PyComment t).
Proof. reflexivity. Qed.

Lemma Comment_finds (m : string) (f : method) :
  Comment.class_dict m = Some f ->
  find_method lib_methods cls_Comment m = Some f.
Proof. intros H. cbn. now rewrite H. Qed.

Lemma no_proper_subclass_of_Comment (v : pyval) :
  negb (bool_decide (cls_Comment = type_of v)) && issubclass (type_of v) cls_Comment
  = false.
Proof. destruct v; reflexivity. Qed.

End CommentProperties.

(** ** The Comment node *)

Section CommentClaims.

Context (lib_methods : pyclass -> string -> option method).

(** C5.  For every text [t] and every value [v] (another comment with the
    same text and the very same object included), [Comment(t) == v]
    returns [False] and [Comment(t) != v] returns [True]; in particular
    a comment compared with itself by [==] gives [False].  This holds
    whatever the comparison methods of the other classes do. *)
Theorem Comment_compares_unequal (a : nat) (t : string) (v : pyobj) :
  richcompare lib_methods Eq_ (comment_at a t) v = Return (PyBool false)
  ∧ richcompare lib_methods Ne_ (comment_at a t) v = Return (PyBool true)
  ∧ richcompare lib_methods Eq_ (comment_at a t) (comment_at a t) = Return (PyBool false).
Proof.
  assert (H : ∀ op w, richcompare lib_methods op (comment_at a t) w
                      = Return (PyBool match op with Eq_ => false | Ne_ => true end)).
  { intros op [b w]. unfold richcompare, type. cbn [val comment_at type_of].
    rewrite no_proper_subclass_of_Comment. cbn [bind is_NotImplemented negb].
    unfold try_compare, type. cbn [val comment_at type_of].
    destruct op; cbn [dunder].
    - rewrite (Comment_finds _ _ Comment.__eq__) by reflexivity. reflexivity.
    - rewrite (Comment_finds _ _ Comment.__ne__) by reflexivity. reflexivity. }
  repeat split; apply H.
Qed.

(** C6.  For every text [t], [str(Comment(t))] is [";"], then [t], then
    one newline, whatever [t] ends with; the value is a function of [t]
    alone. *)
Theorem Comment_str_renders (a b : nat) (t : string) :
  Comment__init__ lib_methods (text b t) = Return (PyComment t)
  ∧ str lib_methods (comment_at a t) = Return (";" +:+ t +:+ newline).
Proof.
  split; [reflexivity|].
  unfold str. cbn [val comment_at]. unfold type. cbn [val comment_at type_of].
  rewrite (Comment_finds _ _ Comment.__str__) by reflexivity.
  reflexivity.
Qed.

(** C8 (what the code does).  [bool(Comment(t))] calls
    [Comment.__bool__] with [self] alone; the method is defined with
    the two parameters [(self, other)], so the call raises [TypeError]
    and the conversion returns neither [False] nor [True]. *)
Theorem Comment_bool_raises (a : nat) (t : string) :
  truth lib_methods (comment_at a t)
  = Raise (TypeError "missing 1 required positional argument")
  ∧ ∀ b, truth lib_methods (comment_at a t) ≠ Return b.
Proof.
  assert (H : truth lib_methods (comment_at a t)
              = Raise (TypeError "missing 1 required positional argument")).
  { unfold truth, type. cbn [val comment_at type_of].
    rewrite (Comment_finds _ _ Comment.__bool__) by reflexivity. reflexivity. }
  split; [exact H|]. intros b. rewrite H. discriminate.
Qed.

(** C10.  [Comment] is declared as a subclass of [Keyword]: every
    comment node is an instance of [Keyword], so a type check for
    keyword nodes matches it. *)
Theorem Comment_isinstance_Keyword (a : nat) (t : string) :
  bases cls_Comment = [cls_Keyword]
  ∧ type (comment_at a t) = cls_Comment
  ∧ isinstance (comment_at a t) cls_Keyword = true.
Proof. repeat split. Qed.

End CommentClaims.

(** ** Strings and cursors *)

Lemma strip_peeked (c : ascii) : nonempty (strip (String c "")) = negb (isspace c).
Proof.
  unfold strip. cbn [lstrip]. destruct (isspace c) eqn:E; [reflexivity|].
  unfold rstrip. cbn. rewrite E. reflexivity.
Qed.

Lemma consume_app (q r : string) (cur : cursor) :
  _stream cur = q +:+ r -> _stream (consume q cur) = r.
Proof.
  revert cur. induction q as [|a q IH]; intros cur E; [exact E|].
  change (String a q +:+ r) with (String a (q +:+ r)) in E.
  cbn. rewrite E. apply IH. reflexivity.
Qed.

Lemma take_while_split (p : ascii -> bool) (s : string) :
  ∃ r, s = take_while p s +:+ r
       ∧ match r with "" => True | String c _ => p c = false end.
Proof.
  induction s as [|a s [r [E Hr]]]; cbn.
  - exists "". split; reflexivity.
  - destruct (p a) eqn:Ea.
    + exists r. split; [| exact Hr].
      change (String a s = String a (take_while p s +:+ r)). f_equal. exact E.
    + exists (String a s). split; [reflexivity | exact Ea].
Qed.

Lemma take_while_all (p : ascii -> bool) (s : string) :
  all_chars p (take_while p s) = true.
Proof.
  induction s as [|a s IH]; cbn; [reflexivity|].
  destruct (p a) eqn:Ea; cbn; [rewrite Ea; exact IH | reflexivity].
Qed.

Lemma take_while_longest (p : ascii -> bool) (q r : string) :
  all_chars p q = true ->
  String.length q <= String.length (take_while p (q +:+ r)).
Proof.
  induction q as [|a q IH]; cbn; intros Hq; [lia|].
  apply andb_prop in Hq as [Ha Hq].
  change (String a q +:+ r) with (String a (q +:+ r)). cbn.
  rewrite Ha. cbn. specialize (IH Hq). lia.
Qed.

Lemma consume_take_while (p : ascii -> bool) (cur : cursor) :
  ∃ r, _stream cur = take_while p (_stream cur) +:+ r
       ∧ _stream (consume (take_while p (_stream cur)) cur) = r
       ∧ match r with "" => True | String c _ => p c = false end.
Proof.
  destruct (take_while_split p (_stream cur)) as [r [E Hr]].
  exists r. repeat split; [exact E | now apply consume_app | exact Hr].
Qed.

(** ** tag_dispatch *)

Section TagDispatch.

Context `{HyLibrary}.

Lemma tag_dispatch_unfold (key : string) (self : Reader) (cur : cursor) :
  tag_dispatch key self cur =
  match _stream cur with
  | "" => Raise (PrematureEndOfInput dispatch_message (fst (_pos cur)) (snd (_pos cur)))
  | String c _ =>
      if isspace c
      then Raise (PrematureEndOfInput dispatch_message (fst (_pos cur)) (snd (_pos cur)))
      else Return (PySymbol ("#" +:+ dispatch_token cur c),
                   consume (dispatch_token cur c) cur)
  end.
Proof.
  unfold tag_dispatch, bind_action, peekc, dispatch_token.
  destruct (_stream cur) as [|c rest] eqn:E; [reflexivity|].
  rewrite strip_peeked, negb_involutive.
  destruct (isspace c) eqn:Ec; [reflexivity|].
  unfold read_ident. rewrite E.
  destruct (nonempty (take_while ident_char (String c rest))) eqn:Ei.
  - reflexivity.
  - assert (Et : take_while ident_char (String c rest) = "").
    { unfold nonempty in Ei. apply negb_false_iff, String.eqb_eq in Ei. exact Ei. }
    rewrite Et. cbn. unfold getc. rewrite E. cbn. reflexivity.
Qed.

End TagDispatch.

(** C1 (amended).  For every stream positioned just after the ["#"]
    whose next character [c] exists and is not whitespace,
    [tag_dispatch] returns the symbol named ["#"] followed by the token
    read, built with [from_parser=True], and leaves the cursor after the
    token.  The token is the longest prefix of identifier characters,
    or [c] alone when there is none.  The result is the same whatever
    the reader's table and registry of reader macros hold. *)
Theorem tag_dispatch_returns_symbol `{HyLibrary} (key : string) (self : Reader)
    (cur : cursor) (c : ascii) (rest : string) :
  _stream cur = String c rest ->
  isspace c = false ->
  let ident := take_while ident_char (_stream cur) in
  let tok := if nonempty ident then ident else String c "" in
  tag_dispatch key self cur = Return (PySymbol ("#" +:+ tok), consume tok cur)
  ∧ Symbol ("#" +:+ tok) true = Return (PySymbol ("#" +:+ tok))
  ∧ (∃ r, _stream cur = tok +:+ r ∧ _stream (consume tok cur) = r)
  ∧ all_chars ident_char ident = true
  ∧ (∀ q r, _stream cur = q +:+ r -> all_chars ident_char q = true ->
            String.length q <= String.length ident)
  ∧ (∀ self', tag_dispatch key self' cur = tag_dispatch key self cur).
Proof.
  intros E Ec ident tok.
  assert (Ht : tok = dispatch_token cur c) by reflexivity.
  repeat split.
  - rewrite tag_dispatch_unfold, E, Ec, Ht. reflexivity.
  - subst tok ident. destruct (nonempty _) eqn:Ei.
    + destruct (consume_take_while ident_char cur) as [r [E1 [E2 _]]]. eauto.
    + exists rest. split; [exact E|]. cbn. rewrite E. reflexivity.
  - apply take_while_all.
  - intros q r Eq Hq. subst ident. rewrite Eq. now apply take_while_longest.
  - intros self'. now rewrite !tag_dispatch_unfold.
Qed.

Lemma tag_dispatch_returns_symbol_witness :
  let cur := {| _stream := "foo bar"; _pos := (1, 1) |} in
  _stream cur = String "f" "oo bar"
  ∧ isspace "f" = false
  ∧ @tag_dispatch small_hy "#" small_safe_reader cur
    = Return (PySymbol "#foo", {| _stream := " bar"; _pos := (1, 4) |}).
Proof.
  split; [reflexivity|]. split; [reflexivity|].
  exact (proj1 (@tag_dispatch_returns_symbol small_hy "#" small_safe_reader
                  {| _stream := "foo bar"; _pos := (1, 1) |} "f" "oo bar"
                  eq_refl eq_refl)).
Defined.

(** C1 as stated fails when the character after the ["#"] is
    whitespace: a character is available, yet no symbol is returned. *)
Lemma tag_dispatch_before_space_counterexample :
  let cur := {| _stream := " foo"; _pos := (1, 1) |} in
  _stream cur ≠ ""
  ∧ ∀ name cur', @tag_dispatch small_hy "#" small_safe_reader cur
                 ≠ Return (PySymbol name, cur').
Proof. split; [discriminate | intros name cur'; vm_compute; discriminate]. Qed.

(** C3 (amended).  [tag_dispatch] raises [PrematureEndOfInput], with
    the reader's position, exactly when the stream after the ["#"] is
    exhausted or its next character is whitespace; it raises nothing
    else.  Reading the text ["#"] alone fails with that condition at
    line 1, column 1, the position of the introducer. *)
Theorem tag_dispatch_premature_end `{HyLibrary} (key : string) (self : Reader)
    (cur : cursor) :
  (tag_dispatch key self cur
   = Raise (PrematureEndOfInput dispatch_message (fst (_pos cur)) (snd (_pos cur)))
   ↔ at_end_or_space cur = true)
  ∧ (∀ e, tag_dispatch key self cur = Raise e -> at_end_or_space cur = true)
  ∧ (reader_table self !! "#" = Some h_tag_dispatch ->
     ∀ fuel, parse (S (S fuel)) self "#"
             = Some ([], Some (PrematureEndOfInput dispatch_message 1 1))).
Proof.
  rewrite tag_dispatch_unfold. unfold at_end_or_space.
  repeat split.
  - destruct (_stream cur) as [|c rest]; [reflexivity|].
    destruct (isspace c); [reflexivity | discriminate].
  - destruct (_stream cur) as [|c rest]; [reflexivity|].
    intros ->. reflexivity.
  - intros e. destruct (_stream cur) as [|c rest]; [reflexivity|].
    destruct (isspace c); [reflexivity | discriminate].
  - intros Ht fuel. unfold parse, start. simpl. unfold dispatch. rewrite Ht. reflexivity.
Qed.

Lemma tag_dispatch_premature_end_witness :
  reader_table small_safe_reader !! "#" = Some h_tag_dispatch
  ∧ @parse small_hy 2 small_safe_reader "#"
    = Some ([], Some (PrematureEndOfInput dispatch_message 1 1)).
Proof.
  split; [vm_compute; reflexivity|].
  apply (proj2 (proj2 (@tag_dispatch_premature_end small_hy "#" small_safe_reader
                         (start "")))).
  vm_compute. reflexivity.
Defined.

(** C3 as stated fails: with a character available after the ["#"],
    here a space, [tag_dispatch] raises [PrematureEndOfInput]. *)
Lemma tag_dispatch_space_raises_counterexample :
  let cur := {| _stream := " x"; _pos := (1, 1) |} in
  _stream cur ≠ ""
  ∧ @tag_dispatch small_hy "#" small_safe_reader cur
    = Raise (PrematureEndOfInput dispatch_message 1 1).
Proof. split; [discriminate | vm_compute; reflexivity]. Qed.

(** ** line_comment *)

Lemma take_while_ext (p q : ascii -> bool) (s : string) :
  (∀ c, p c = q c) -> take_while p s = take_while q s.
Proof.
  intros Hpq. induction s as [|a s IH]; cbn; [reflexivity|].
  rewrite Hpq, IH. reflexivity.
Qed.

Lemma comment_closing_newline (c : ascii) :
  negb (comment_closing (String c "")) = not_newline c.
Proof.
  unfold comment_closing, not_newline, newline. cbn.
  destruct (Ascii.eqb c LF); reflexivity.
Qed.

Lemma line_comment_unfold `{HyLibrary} (key : string) (self : Reader) (cur : cursor) :
  line_comment key self cur
  = Return (PyComment (take_while not_newline (_stream cur)),
            consume (take_while not_newline (_stream cur)) cur).
Proof.
  unfold line_comment, bind_action, read_chars_until.
  rewrite (take_while_ext _ not_newline) by apply comment_closing_newline.
  unfold lift. rewrite Comment_construct. reflexivity.
Qed.

(** C7.  [line_comment] reads the characters up to, and not including,
    the next newline or the end of the stream, in the raw mode of
    [read_chars_until] (whatever its f-string mode does), and returns
    the [Comment] of exactly that text; a terminating newline stays in
    the stream.  Reading ["; hello world\n(+ 1 2)"] yields that comment
    followed by what the reader yields for ["(+ 1 2)"]. *)
Theorem line_comment_reads_line `{HyLibrary} (key : string) (self : Reader)
    (cur : cursor) :
  let s := take_while not_newline (_stream cur) in
  line_comment key self cur = Return (PyComment s, consume s cur)
  ∧ all_chars not_newline s = true
  ∧ (∃ r, _stream cur = s +:+ r ∧ _stream (consume s cur) = r
          ∧ (r = "" ∨ ∃ r', r = String LF r'))
  ∧ (reader_table self !! ";" = Some h_line_comment ->
     ∀ fuel p,
       parse_forms (S fuel) self
         {| _stream := "; hello world" +:+ newline +:+ "(+ 1 2)"; _pos := p |}
       = preceded_by (PyComment " hello world")
           (parse_forms fuel self {| _stream := "(+ 1 2)"; _pos := (S (fst p), 0) |})).
Proof.
  intros s. split; [apply line_comment_unfold|].
  split; [apply take_while_all|]. split.
  - destruct (consume_take_while not_newline cur) as [r [E1 [E2 Hr]]].
    exists r. repeat split; [exact E1 | exact E2 |].
    destruct r as [|c r']; [now left | right].
    exists r'. unfold not_newline in Hr.
    apply negb_false_iff, Ascii.eqb_eq in Hr. now subst c.
  - intros Ht fuel p. destruct fuel as [|fuel]; [reflexivity|].
    change (parse_forms (S (S fuel)) self
              {| _stream := "; hello world" +:+ newline +:+ "(+ 1 2)"; _pos := p |})
      with (match exec (try_parse_one_form fuel self)
                    (dispatch self ";"
                       {| _stream := " hello world" +:+ newline +:+ "(+ 1 2)";
                          _pos := advance p ";" |}) with
            | None => None
            | Some (Raise e) => Some ([], Some e)
            | Some (Return (model, cur')) =>
                match parse_forms (S fuel) self cur' with
                | None => None
                | Some (models, e) =>
                    Some (match model with Some m => m :: models | None => models end, e)
                end
            end).
    unfold dispatch. rewrite Ht. cbn [handler_prog exec]. unfold run.
    rewrite line_comment_unfold. reflexivity.
Qed.

Lemma line_comment_reads_line_witness :
  reader_table small_safe_reader !! ";" = Some h_line_comment
  ∧ @parse small_hy 4 small_safe_reader ("; hello world" +:+ newline +:+ "(+ 1 2)")
    = Some ([PyComment " hello world";
             PyExpression [PySymbol "+"; PyInt 1; PyInt 2]], None).
Proof.
  split; [vm_compute; reflexivity|].
  unfold parse, start.
  rewrite (proj2 (proj2 (proj2 (@line_comment_reads_line small_hy ";"
                                  small_safe_reader (start "")))) eq_refl 3 (1, 0)).
  vm_compute. reflexivity.
Defined.

(** ** Construction *)

Lemma safe_table_has_no_macro_tag :
  filter (fun kv : string * handler => ¬ Is_true (is_macro_tag kv.1))
         HySafeReader_DEFAULT_TABLE
  = HySafeReader_DEFAULT_TABLE.
Proof.
  apply map_filter_id. intros i x Hix. unfold HySafeReader_DEFAULT_TABLE in Hix.
  apply lookup_insert_Some in Hix as [[<- _]|[_ Hix]]; [cbn; tauto|].
  apply lookup_insert_Some in Hix as [[<- _]|[_ Hix]]; [cbn; tauto|].
  rewrite lookup_empty in Hix. discriminate.
Qed.

(** Construction succeeds, with one and the same reader, exactly when
    no option other than [use_current_readers] is passed. *)
Lemma HySafeReader_init_cases `{HyLibrary} (env : gmap string handler)
    (kwargs : gmap string pyval) :
  (delete option_name kwargs = ∅
   ∧ HySafeReader__init__ env kwargs = Return safe_instance)
  ∨ (delete option_name kwargs ≠ ∅
     ∧ ∃ msg, HySafeReader__init__ env kwargs = Raise (TypeError msg)).
Proof.
  unfold HySafeReader__init__, HySafeReader_super__init__, HyReader__init__, option_name.
  destruct (map_to_list (delete "use_current_readers" kwargs)) as [|kv l] eqn:E.
  - left. apply map_to_list_empty_iff in E. split; [exact E|].
    cbn [bind reader_table reader_macros]. rewrite safe_table_has_no_macro_tag.
    reflexivity.
  - right. split; [|eexists; reflexivity].
    intros E'. rewrite E', map_to_list_empty in E. discriminate.
Qed.

(** C2.  Whatever options are passed, whatever handlers the base class
    has registered ([grammar], reader macros included) and whatever is
    registered in the process, a constructed [HySafeReader] has an empty
    registry of reader macros; construction returns whenever the only
    option passed, if any, is [use_current_readers]. *)
Theorem HySafeReader_registry_empty `{HyLibrary} (env : gmap string handler)
    (kwargs : gmap string pyval) :
  (∀ self, HySafeReader__init__ env kwargs = Return self ->
           reader_macros self = ∅ ∧ ∀ name, reader_macros self !! name = None)
  ∧ (delete option_name kwargs = ∅ ->
     ∃ self, HySafeReader__init__ env kwargs = Return self).
Proof.
  destruct (HySafeReader_init_cases env kwargs) as [[E ->]|[E [msg ->]]].
  - split; [|eauto]. intros self [= <-]. split; [reflexivity|].
    intros name. apply lookup_empty.
  - split; [discriminate | contradiction].
Qed.

Lemma HySafeReader_registry_empty_witness :
  @HySafeReader__init__ small_hy small_registry (<[option_name := PyBool true]> ∅)
  = Return small_safe_reader
  ∧ reader_macros small_safe_reader = ∅.
Proof.
  assert (E : @HySafeReader__init__ small_hy small_registry
                (<[option_name := PyBool true]> ∅) = Return small_safe_reader)
    by (vm_compute; reflexivity).
  split; [exact E|].
  exact (proj1 (proj1 (@HySafeReader_registry_empty small_hy small_registry
                         (<[option_name := PyBool true]> ∅)) small_safe_reader E)).
Defined.

Lemma safe_table_registers_no_macro :
  (list_to_map (prod_map tag_name id <$>
     map_to_list (filter (fun kv : string * handler => Is_true (is_macro_tag kv.1))
                         HySafeReader_DEFAULT_TABLE)) : gmap string handler) = ∅.
Proof. vm_compute. reflexivity. Qed.

(** What the call of the base constructor builds: with the option
    disabled an empty registry, with the option enabled the reader
    macros registered in the process. *)
Lemma super_init_cases (env : gmap string handler) (flag : bool)
    (kwargs : gmap string pyval) :
  (kwargs = ∅
   ∧ HyReader__init__ HySafeReader_DEFAULT_TABLE env flag kwargs
     = Return {| reader_table := HySafeReader_DEFAULT_TABLE;
                 reader_macros := if flag then env else ∅ |})
  ∨ (kwargs ≠ ∅
     ∧ ∃ msg, HyReader__init__ HySafeReader_DEFAULT_TABLE env flag kwargs
              = Raise (TypeError msg)).
Proof.
  unfold HyReader__init__.
  destruct (map_to_list kwargs) as [|kv l] eqn:E.
  - left. apply map_to_list_empty_iff in E. split; [exact E|].
    rewrite safe_table_has_no_macro_tag, safe_table_registers_no_macro.
    destruct flag; [|reflexivity]. now rewrite (right_id_L ∅ (∪)).
  - right. split; [|eexists; reflexivity].
    intros E'. rewrite E', map_to_list_empty in E. discriminate.
Qed.

(** C9.  [HySafeReader.__init__] drops the value passed for
    [use_current_readers] and calls the base constructor with the
    option disabled.  The reader that call builds, registry included,
    is the same whatever value is passed and whatever reader macros are
    registered in the process, and its registry is empty, where the
    base constructor with the option enabled would have put the
    registered reader macros.  Hence the reader constructed is the same
    in every process and for every passed value, and so is what reading
    a text with it yields. *)
Theorem HySafeReader_ignores_registered_readers `{HyLibrary}
    (env1 env2 : gmap string handler) (kwargs : gmap string pyval) (v : pyval)
    (fuel : nat) (text : string) :
  HySafeReader_super__init__ env1 (<[option_name := v]> kwargs)
  = HySafeReader_super__init__ env2 (delete option_name kwargs)
  ∧ (∀ self, HySafeReader_super__init__ env1 (<[option_name := v]> kwargs) = Return self ->
       reader_macros self = ∅
       ∧ HyReader__init__ HySafeReader_DEFAULT_TABLE env1 true (delete option_name kwargs)
         = Return {| reader_table := reader_table self; reader_macros := env1 |})
  ∧ HySafeReader__init__ env1 kwargs
    = (let* self := HySafeReader_super__init__ env1 kwargs in
       Return {| reader_table := reader_table self ∪ HyReader_DEFAULT_TABLE;
                 reader_macros := ∅ |})
  ∧ HySafeReader__init__ env1 (<[option_name := v]> kwargs)
    = (let* self := HyReader__init__ HySafeReader_DEFAULT_TABLE env1 false
                      (delete option_name kwargs) in
       Return {| reader_table := reader_table self ∪ HyReader_DEFAULT_TABLE;
                 reader_macros := ∅ |})
  ∧ HySafeReader__init__ env1 (<[option_name := v]> kwargs)
    = HySafeReader__init__ env2 (delete option_name kwargs)
  ∧ HySafeReader__init__ env1 kwargs = HySafeReader__init__ env2 kwargs
  ∧ safe_read env1 kwargs fuel text = safe_read env2 kwargs fuel text
  ∧ safe_read env1 (<[option_name := v]> kwargs) fuel text
    = safe_read env2 (delete option_name kwargs) fuel text.
Proof.
  assert (Hd : delete option_name (<[option_name := v]> kwargs)
               = delete option_name kwargs) by apply delete_insert_eq.
  assert (Hs : ∀ e1 e2 k1 k2, delete option_name k1 = delete option_name k2 ->
                 HySafeReader_super__init__ e1 k1 = HySafeReader_super__init__ e2 k2).
  { intros e1 e2 k1 k2 Ek.
    unfold HySafeReader_super__init__, HyReader__init__. fold option_name.
    rewrite Ek. destruct (map_to_list (delete option_name k2)); reflexivity. }
  assert (Hi : ∀ e1 e2 k1 k2, delete option_name k1 = delete option_name k2 ->
                 HySafeReader__init__ e1 k1 = HySafeReader__init__ e2 k2).
  { intros e1 e2 k1 k2 Ek. unfold HySafeReader__init__.
    now rewrite (Hs e1 e2 k1 k2 Ek). }
  split; [apply Hs; now rewrite Hd, delete_delete_eq|].
  split.
  { intros self. unfold HySafeReader_super__init__. fold option_name. rewrite Hd.
    destruct (super_init_cases env1 false (delete option_name kwargs))
      as [[E ->]|[_ [m ->]]]; [|discriminate].
    intros [= <-]. split; [reflexivity|]. cbn [reader_table].
    destruct (super_init_cases env1 true (delete option_name kwargs))
      as [[_ ->]|[Hne _]]; [reflexivity | contradiction]. }
  split; [reflexivity|].
  split.
  { unfold HySafeReader__init__, HySafeReader_super__init__. fold option_name.
    rewrite Hd. reflexivity. }
  split; [apply Hi; now rewrite Hd, delete_delete_eq|].
  split; [now apply Hi|].
  unfold safe_read. split.
  - now rewrite (Hi env1 env2 kwargs kwargs).
  - rewrite (Hi env1 env2 (<[option_name := v]> kwargs) (delete option_name kwargs));
      [reflexivity|]. now rewrite Hd, delete_delete_eq.
Qed.

Lemma HySafeReader_ignores_registered_readers_witness :
  HySafeReader_super__init__ small_registry (<[option_name := PyBool true]> ∅)
  = Return {| reader_table := HySafeReader_DEFAULT_TABLE; reader_macros := ∅ |}
  ∧ HyReader__init__ HySafeReader_DEFAULT_TABLE small_registry true
      (delete option_name ∅)
    = Return {| reader_table := HySafeReader_DEFAULT_TABLE;
                reader_macros := small_registry |}.
Proof.
  assert (E : HySafeReader_super__init__ small_registry (<[option_name := PyBool true]> ∅)
              = Return {| reader_table := HySafeReader_DEFAULT_TABLE; reader_macros := ∅ |})
    by (vm_compute; reflexivity).
  split; [exact E|].
  exact (proj2 (proj1 (proj2 (@HySafeReader_ignores_registered_readers small_hy
                                small_registry ∅ ∅ (PyBool true) 0 ""))
                      _ E)).
Defined.

(** ** The override layer *)

Lemma exec_same (f1 f2 : cursor -> option parsed) (k1 : cursor -> list string)
    (p : prog) :
  (∀ c, "#" ∉ k1 c -> ";" ∉ k1 c -> f2 c = f1 c) ->
  "#" ∉ exec_keys f1 k1 p -> ";" ∉ exec_keys f1 k1 p ->
  exec f2 p = exec f1 p.
Proof.
  intros Hf. induction p as [r|c k IH]; cbn; intros H1 H2; [reflexivity|].
  apply not_elem_of_app in H1 as [H1a H1b].
  apply not_elem_of_app in H2 as [H2a H2b].
  rewrite (Hf c H1a H2a). destruct (f1 c) as [r|]; [|reflexivity].
  now apply IH.
Qed.

Section SameOffOverrides.

Context `{HyLibrary} (r1 r2 : Reader) (Hsame : same_off_overrides r1 r2).

Lemma try_parse_one_form_same (fuel : nat) (cur : cursor) :
  "#" ∉ introducers_one fuel r1 cur -> ";" ∉ introducers_one fuel r1 cur ->
  try_parse_one_form fuel r2 cur = try_parse_one_form fuel r1 cur.
Proof.
  revert cur. induction fuel as [|n IH]; intros cur H1 H2; [reflexivity|].
  cbn [try_parse_one_form introducers_one] in *.
  destruct (_stream (slurp_space cur)) as [|c rest]; [reflexivity|].
  apply not_elem_of_cons in H1 as [Hc1 H1].
  apply not_elem_of_cons in H2 as [Hc2 H2].
  rewrite Hsame by congruence.
  now apply (exec_same _ _ (introducers_one n r1)).
Qed.

Lemma parse_forms_same (fuel : nat) (cur : cursor) :
  "#" ∉ introducers fuel r1 cur -> ";" ∉ introducers fuel r1 cur ->
  parse_forms fuel r2 cur = parse_forms fuel r1 cur.
Proof.
  revert cur. induction fuel as [|n IH]; intros cur H1 H2; [reflexivity|].
  cbn [parse_forms introducers] in *.
  destruct (_stream (slurp_space cur)) as [|c rest] eqn:E; [reflexivity|].
  apply not_elem_of_app in H1 as [H1a H1b].
  apply not_elem_of_app in H2 as [H2a H2b].
  rewrite (try_parse_one_form_same n _ H1a H2a).
  destruct (try_parse_one_form n r1 (slurp_space cur)) as [[[model cur']|e]|];
    [|reflexivity|reflexivity].
  now rewrite IH.
Qed.

End SameOffOverrides.

Lemma single_char_no_macro_tag (c : ascii) : is_macro_tag (String c "") = false.
Proof. cbn. now destruct c as [[] [] [] [] [] [] [] []]. Qed.

Lemma safe_instance_lookup `{HyLibrary} (key : string) :
  reader_table safe_instance !! key
  = if decide (key = "#") then Some h_tag_dispatch
    else if decide (key = ";") then Some h_line_comment
    else HyReader_DEFAULT_TABLE !! key.
Proof.
  unfold safe_instance, HySafeReader_DEFAULT_TABLE. cbn [reader_table].
  rewrite lookup_union. repeat case_decide; subst.
  - now rewrite lookup_insert_eq, union_Some_l.
  - rewrite lookup_insert_ne, lookup_insert_eq by done. now rewrite union_Some_l.
  - rewrite !lookup_insert_ne, lookup_empty by done.
    now destruct (HyReader_DEFAULT_TABLE !! key).
Qed.

Lemma base_instance_lookup `{HyLibrary} (env : gmap string handler) (flag : bool)
    (kwargs : gmap string pyval) (base : Reader) (c : ascii) :
  HyReader__init__ HyReader_DEFAULT_TABLE env flag kwargs = Return base ->
  reader_table base !! String c "" = HyReader_DEFAULT_TABLE !! String c "".
Proof.
  unfold HyReader__init__. destruct (map_to_list kwargs); [|discriminate].
  intros [= <-]. cbn [reader_table]. rewrite map_lookup_filter.
  destruct (HyReader_DEFAULT_TABLE !! String c "") as [h|]; [|reflexivity].
  change (guard (¬ Is_true (is_macro_tag (String c ""))) ≫= (fun _ => Some h) = Some h).
  rewrite single_char_no_macro_tag. now rewrite option_guard_True.
Qed.

Lemma base_grammar_lookup `{HyLibrary} (key : string) :
  key ≠ "#" -> HyReader_DEFAULT_TABLE !! key = h_HyReader <$> grammar !! key.
Proof.
  intros Hk. unfold HyReader_DEFAULT_TABLE.
  now rewrite lookup_insert_ne, lookup_fmap by done.
Qed.

Lemma constructed_same_off_overrides `{HyLibrary} (env : gmap string handler)
    (flag : bool) (kwargs : gmap string pyval) (base : Reader) :
  HyReader__init__ HyReader_DEFAULT_TABLE env flag kwargs = Return base ->
  same_off_overrides base safe_instance.
Proof.
  intros Hb c cur H1 H2. unfold dispatch.
  rewrite (base_instance_lookup _ _ _ _ c Hb), safe_instance_lookup.
  rewrite !decide_False by done. rewrite base_grammar_lookup by done.
  destruct (grammar !! String c ""); reflexivity.
Qed.

(** C4.  The reader table of a constructed [HySafeReader] maps ["#"]
    and [";"] to the two overrides and every other key to the handler
    of [HyReader.DEFAULT_TABLE], which for a character is the handler a
    [HyReader] instance has.  For every text in which neither ["#"] nor
    [";"] occurs as an introducer (outside of the spans the handlers of
    the grammar read by themselves), the [HySafeReader] yields the same
    sequence of nodes, and the same error if any, as the [HyReader]. *)
Theorem safe_reader_overrides_only_two `{HyLibrary}
    (env env' : gmap string handler) (kwargs kwargs' : gmap string pyval)
    (flag : bool) (safe base : Reader) :
  HySafeReader__init__ env kwargs = Return safe ->
  HyReader__init__ HyReader_DEFAULT_TABLE env' flag kwargs' = Return base ->
  reader_table safe !! "#" = Some h_tag_dispatch
  ∧ reader_table safe !! ";" = Some h_line_comment
  ∧ HyReader_DEFAULT_TABLE !! "#" = Some h_HyReader_tag_dispatch
  ∧ (∀ key, key ≠ "#" -> key ≠ ";" ->
            reader_table safe !! key = HyReader_DEFAULT_TABLE !! key)
  ∧ (∀ c : ascii, String c "" ≠ "#" -> String c "" ≠ ";" ->
            reader_table safe !! String c "" = reader_table base !! String c "")
  ∧ (∀ fuel text,
       "#" ∉ introducers fuel base (start text) ->
       ";" ∉ introducers fuel base (start text) ->
       parse fuel safe text = parse fuel base text).
Proof.
  intros Hs Hb.
  destruct (HySafeReader_init_cases env kwargs) as [[_ E]|[_ [msg E]]];
    rewrite E in Hs; [|discriminate]. injection Hs as <-.
  split; [now rewrite safe_instance_lookup|].
  split; [now rewrite safe_instance_lookup|].
  split; [apply lookup_insert_eq|].
  split; [intros key H1 H2; rewrite safe_instance_lookup; now rewrite !decide_False|].
  split.
  - intros c H1 H2. rewrite (base_instance_lookup _ _ _ _ c Hb), safe_instance_lookup.
    now rewrite !decide_False.
  - intros fuel text H1 H2. unfold parse.
    apply parse_forms_same; [|assumption|assumption].
    exact (constructed_same_off_overrides _ _ _ _ Hb).
Qed.

Lemma safe_reader_overrides_only_two_witness :
  @HySafeReader__init__ small_hy small_registry ∅ = Return small_safe_reader
  ∧ HyReader__init__ (@HyReader_DEFAULT_TABLE small_hy) small_registry true ∅
    = Return small_base_reader
  ∧ ("#" ∉ @introducers small_hy 10 small_base_reader (start "(a (b 1)) c"))
  ∧ (";" ∉ @introducers small_hy 10 small_base_reader (start "(a (b 1)) c"))
  ∧ @parse small_hy 10 small_safe_reader "(a (b 1)) c"
    = @parse small_hy 10 small_base_reader "(a (b 1)) c".
Proof.
  assert (Es : @HySafeReader__init__ small_hy small_registry ∅
               = Return small_safe_reader) by (vm_compute; reflexivity).
  assert (Eb : HyReader__init__ (@HyReader_DEFAULT_TABLE small_hy) small_registry true ∅
               = Return small_base_reader) by (vm_compute; reflexivity).
  assert (H1 : "#" ∉ (@introducers small_hy 10 small_base_reader (start "(a (b 1)) c")))
    by (apply (bool_decide_unpack _); vm_compute; exact I).
  assert (H2 : ";" ∉ (@introducers small_hy 10 small_base_reader (start "(a (b 1)) c")))
    by (apply (bool_decide_unpack _); vm_compute; exact I).
  repeat (split; [assumption|]).
  exact (proj2 (proj2 (proj2 (proj2 (proj2
           (@safe_reader_overrides_only_two small_hy _ _ _ _ _ _ _ Es Eb)))))
           10 "(a (b 1)) c" H1 H2).
Defined.

(** ** Examples on the small grammar *)

Example small_safe_table :
  @HySafeReader__init__ small_hy small_registry ∅ = Return small_safe_reader.
Proof. vm_compute. reflexivity. Qed.

Example small_parse_comment_form :
  @parse small_hy 10 small_safe_reader ("; hello world" +:+ newline +:+ "(+ 1 2)")
  = Some ([PyComment " hello world";
           PyExpression [PySymbol "+"; PyInt 1; PyInt 2]], None).
Proof. vm_compute. reflexivity. Qed.

Example small_parse_dispatch :
  @parse small_hy 10 small_safe_reader "#foo (a #(b))"
  = Some ([PySymbol "#foo";
           PyExpression [PySymbol "a"; PySymbol "#("; PySymbol "b"]], Some (LexException "Ran into a closing delimiter" 1 13)).
Proof. vm_compute. reflexivity. Qed.

Example small_base_parse_dispatch :
  @parse small_hy 10 small_base_reader "#foo (a b)"
  = Some ([PyExpression [PySymbol "ran"; PySymbol "foo"];
           PyExpression [PySymbol "a"; PySymbol "b"]], None).
Proof. vm_compute. reflexivity. Qed.

Example small_parse_hash_foo :
  @safe_read small_hy small_registry ∅ 3 "#foo"
  = Return (Some ([PySymbol "#foo"], None)).
Proof. vm_compute. reflexivity. Qed.

(** The base reader, by contrast, runs the reader macro when it takes
    the registered handlers, and fails when there is none. *)
Example small_base_depends_on_registry :
  (let* base := HyReader__init__ (@HyReader_DEFAULT_TABLE small_hy) small_registry true ∅ in
   Return (@parse small_hy 3 base "#foo"))
  = Return (Some ([PyExpression [PySymbol "ran"; PySymbol "foo"]], None))
  ∧ (let* base := HyReader__init__ (@HyReader_DEFAULT_TABLE small_hy) small_registry false ∅ in
     Return (@parse small_hy 3 base "#foo"))
    = Return (Some ([], Some (LexException "reader macro is not defined" 1 1))).
Proof. split; vm_compute; reflexivity. Qed.

Example small_comment_without_newline :
  @safe_read small_hy small_registry ∅ 3 "; no newline"
  = Return (Some ([PyComment " no newline"], None)).
Proof. vm_compute. reflexivity. Qed.

(** * Further properties of the reader *)

(** X1.  A keyword compared with a comment, the keyword on the left,
    is unequal too: [Comment] is a proper subclass of [Keyword], so
    Python asks [Comment.__eq__] (or [__ne__]) first, whatever
    [Keyword]'s own methods would answer, even for the same name. *)
Theorem Keyword_never_equals_Comment (lib : pyclass -> string -> option method)
    (a b : nat) (t n : string) :
  richcompare lib Eq_ {| addr := b; val := PyKeyword n |} (comment_at a t)
  = Return (PyBool false)
  ∧ richcompare lib Ne_ {| addr := b; val := PyKeyword n |} (comment_at a t)
    = Return (PyBool true).
Proof.
  assert (H : ∀ op, richcompare lib op {| addr := b; val := PyKeyword n |} (comment_at a t)
                    = Return (PyBool match op with Eq_ => false | Ne_ => true end)).
  { intros op. unfold richcompare, type. cbn [val comment_at type_of].
    change (negb (bool_decide (cls_Keyword = cls_Comment))
            && issubclass cls_Comment cls_Keyword) with true.
    cbn iota. unfold try_compare at 1, type. cbn [val comment_at type_of].
    destruct op; cbn [dunder].
    - rewrite (Comment_finds _ _ Comment.__eq__) by reflexivity. reflexivity.
    - rewrite (Comment_finds _ _ Comment.__ne__) by reflexivity. reflexivity. }
  split; apply H.
Qed.

Lemma length_append (q r : string) :
  String.length (q +:+ r) = String.length q + String.length r.
Proof.
  induction q as [|c q IH]; [reflexivity|].
  change (String c q +:+ r) with (String c (q +:+ r)). cbn. now rewrite IH.
Qed.

(** X2.  Whenever [tag_dispatch] returns, the node is a symbol named
    ["#"] followed by a token that is not empty and whose first
    character is not whitespace; the token is what was consumed, so the
    stream got strictly shorter. *)
Theorem tag_dispatch_token_shape `{HyLibrary} (key : string) (self : Reader)
    (cur cur' : cursor) (v : pyval) :
  tag_dispatch key self cur = Return (v, cur') ->
  ∃ c tok, v = PySymbol ("#" +:+ String c tok)
           ∧ isspace c = false
           ∧ _stream cur = String c tok +:+ _stream cur'
           ∧ String.length (_stream cur') < String.length (_stream cur).
Proof.
  rewrite tag_dispatch_unfold.
  destruct (_stream cur) as [|c rest] eqn:E; [discriminate|].
  destruct (isspace c) eqn:Ec; [discriminate|].
  intros [= <- <-].
  assert (Hsplit : ∃ tok, dispatch_token cur c = String c tok
                          ∧ String c rest
                            = String c tok +:+ _stream (consume (dispatch_token cur c) cur)).
  { unfold dispatch_token. destruct (nonempty _) eqn:Ei.
    - destruct (consume_take_while ident_char cur) as [r [E1 [E2 _]]].
      rewrite E2. rewrite E in E1, Ei |- *. cbn [take_while] in E1, Ei |- *.
      destruct (ident_char c); [|discriminate].
      eexists. split; [reflexivity | exact E1].
    - exists "". split; [reflexivity|]. cbn. rewrite E. reflexivity. }
  destruct Hsplit as [tok [Et Es]]. exists c, tok.
  split; [now rewrite Et|]. split; [exact Ec|]. split; [exact Es|].
  rewrite Es, length_append. cbn. lia.
Qed.

Lemma tag_dispatch_token_shape_witness :
  @tag_dispatch small_hy "#" small_safe_reader {| _stream := "foo bar"; _pos := (1, 1) |}
  = Return (PySymbol "#foo", {| _stream := " bar"; _pos := (1, 4) |})
  ∧ ∃ c tok, PySymbol "#foo" = PySymbol ("#" +:+ String c tok)
             ∧ isspace c = false
             ∧ "foo bar" = String c tok +:+ " bar"
             ∧ String.length " bar" < String.length "foo bar".
Proof.
  split; [reflexivity|].
  exact (@tag_dispatch_token_shape small_hy "#" small_safe_reader
           {| _stream := "foo bar"; _pos := (1, 1) |}
           {| _stream := " bar"; _pos := (1, 4) |} (PySymbol "#foo") eq_refl).
Defined.

Lemma exec_ext (f1 f2 : cursor -> option parsed) (p : prog) :
  (∀ c, f2 c = f1 c) -> exec f2 p = exec f1 p.
Proof.
  intros Hf. induction p as [r|c k IH]; cbn; [reflexivity|].
  rewrite Hf. destruct (f1 c); [apply IH | reflexivity].
Qed.

Section NoExtensionCode.

Context (H : HyLibrary)
        (dispatch_code : gmap string handler -> string -> cursor -> prog)
        (macros_code : string -> string -> cursor -> prog).

Let H' : HyLibrary := with_extensions H dispatch_code macros_code.

Lemma safe_dispatch_same (c : ascii) (cur : cursor) :
  @dispatch H' (@safe_instance H) (String c "") cur
  = @dispatch H (@safe_instance H) (String c "") cur.
Proof.
  unfold dispatch. rewrite safe_instance_lookup.
  case_decide; [reflexivity|]. case_decide; [reflexivity|].
  rewrite base_grammar_lookup by done.
  destruct (grammar !! String c ""); reflexivity.
Qed.

Lemma safe_try_parse_same (fuel : nat) (cur : cursor) :
  @try_parse_one_form H' fuel (@safe_instance H) cur
  = @try_parse_one_form H fuel (@safe_instance H) cur.
Proof.
  revert cur. induction fuel as [|n IH]; intros cur; [reflexivity|].
  cbn [try_parse_one_form].
  destruct (_stream (slurp_space cur)) as [|c rest]; [reflexivity|].
  rewrite safe_dispatch_same. now apply exec_ext.
Qed.

Lemma safe_parse_forms_same (fuel : nat) (cur : cursor) :
  @parse_forms H' fuel (@safe_instance H) cur
  = @parse_forms H fuel (@safe_instance H) cur.
Proof.
  revert cur. induction fuel as [|n IH]; intros cur; [reflexivity|].
  cbn [parse_forms].
  destruct (_stream (slurp_space cur)) as [|c rest]; [reflexivity|].
  rewrite safe_try_parse_same.
  destruct (try_parse_one_form n safe_instance (slurp_space cur))
    as [[[model cur']|e]|]; [|reflexivity|reflexivity].
  now rewrite IH.
Qed.

End NoExtensionCode.

(** X4.  What a [HySafeReader] reads does not depend on the code of
    [HyReader.tag_dispatch] nor on the code of any reader macro
    registered in the process: replacing both by anything leaves the
    result of constructing the reader and reading any text unchanged,
    so neither is ever run. *)
Theorem safe_read_runs_no_extension (H : HyLibrary)
    (dispatch_code : gmap string handler -> string -> cursor -> prog)
    (macros_code : string -> string -> cursor -> prog)
    (env : gmap string handler) (kwargs : gmap string pyval)
    (fuel : nat) (text : string) :
  @safe_read (with_extensions H dispatch_code macros_code) env kwargs fuel text
  = @safe_read H env kwargs fuel text.
Proof.
  unfold safe_read.
  change (@HySafeReader__init__ (with_extensions H dispatch_code macros_code) env kwargs)
    with (@HySafeReader__init__ H env kwargs).
  destruct (@HySafeReader_init_cases H env kwargs) as [[_ ->]|[_ [msg ->]]];
    [|reflexivity].
  cbn [bind]. unfold parse. now rewrite safe_parse_forms_same.
Qed.

(** * Properties of the REPL helpers *)

(** ** File names *)

Lemma after_last_slash_none (s : string) :
  all_chars not_slash s = true -> after_last_slash s = None.
Proof.
  induction s as [|c s IH]; [reflexivity|]. cbn.
  intros [Hc Hs]%andb_prop. rewrite (IH Hs).
  unfold not_slash in Hc. now destruct (Ascii.eqb c "/").
Qed.

Lemma after_last_slash_app (p s : string) :
  all_chars not_slash s = true ->
  after_last_slash (p +:+ s) = (fun r => r +:+ s) <$> after_last_slash p.
Proof.
  intros Hs. induction p as [|c p IH].
  - now apply after_last_slash_none.
  - change (String c p +:+ s) with (String c (p +:+ s)). cbn [after_last_slash].
    rewrite IH. destruct (after_last_slash p); [reflexivity|]. cbn.
    now destruct (Ascii.eqb c "/").
Qed.

Lemma basename_app (p s : string) :
  all_chars not_slash s = true -> basename (p +:+ s) = basename p +:+ s.
Proof.
  intros Hs. unfold basename. rewrite (after_last_slash_app p s Hs).
  now destruct (after_last_slash p).
Qed.

Lemma after_last_slash_spec (p r : string) :
  after_last_slash p = Some r ->
  all_chars not_slash r = true ∧ ∃ d, p = d +:+ "/" +:+ r.
Proof.
  revert r. induction p as [|c p IH]; intros r; [discriminate|]. cbn.
  destruct (after_last_slash p) as [r'|] eqn:E.
  - intros [= <-]. destruct (IH r' eq_refl) as [Hr [d ->]].
    split; [exact Hr|]. now exists (String c d).
  - destruct (Ascii.eqb c "/") eqn:Ec; [|discriminate]. intros [= <-].
    apply Ascii.eqb_eq in Ec as ->. split; [|now exists ""].
    clear IH. induction p as [|a p IH]; [reflexivity|]. cbn in E.
    destruct (after_last_slash p); [discriminate|].
    destruct (Ascii.eqb a "/") eqn:Ea; [discriminate|].
    cbn. unfold not_slash at 1. rewrite Ea. now apply IH.
Qed.

Lemma basename_spec (p : string) :
  all_chars not_slash (basename p) = true
  ∧ (p = basename p ∨ ∃ d, p = d +:+ "/" +:+ basename p).
Proof.
  unfold basename. destruct (after_last_slash p) as [r|] eqn:E.
  - destruct (after_last_slash_spec p r E) as [Hr Hd]. eauto.
  - split; [|now left]. induction p as [|a p IH]; [reflexivity|]. cbn in E.
    destruct (after_last_slash p); [discriminate|].
    destruct (Ascii.eqb a "/") eqn:Ea; [discriminate|].
    cbn. unfold not_slash at 1. rewrite Ea. now apply IH.
Qed.

Lemma basename_after_slash (d r : string) :
  all_chars not_slash r = true -> basename (d +:+ "/" +:+ r) = r.
Proof.
  intros Hr. unfold basename.
  replace (after_last_slash (d +:+ "/" +:+ r)) with (Some r); [reflexivity|].
  induction d as [|c d IH].
  - change ("" +:+ "/" +:+ r) with (String "/" r). cbn.
    now rewrite after_last_slash_none.
  - change (String c d +:+ "/" +:+ r) with (String c (d +:+ "/" +:+ r)).
    cbn [after_last_slash]. now rewrite <- IH.
Qed.

Lemma all_chars_app (p : ascii -> bool) (q r : string) :
  all_chars p (q +:+ r) = all_chars p q && all_chars p r.
Proof.
  induction q as [|c q IH]; [reflexivity|].
  change (String c q +:+ r) with (String c (q +:+ r)). cbn.
  now rewrite IH, andb_assoc.
Qed.

Lemma lang_of_dotted_name (filename : string) :
  all_chars not_dot (basename filename) = false ->
  _get_lang_from_filename filename = None.
Proof.
  intros Hd. unfold _get_lang_from_filename.
  repeat match goal with
         | |- context [String.eqb ?s ?n] =>
             let E := fresh "E" in
             destruct (String.eqb s n) eqn:E;
             [apply String.eqb_eq in E; rewrite E in Hd; discriminate|]
         end.
  reflexivity.
Qed.

(** X5.  A file name with an extension never gets a language: for
    every [p] and every extension [ext] (without a slash),
    [_get_lang_from_filename(p + "." + ext)] returns [None], for
    [".py"] and [".hy"] files too. *)
Theorem lang_from_extension_is_None (p ext : string) :
  all_chars not_slash ext = true ->
  _get_lang_from_filename (p +:+ "." +:+ ext) = None.
Proof.
  intros He. apply lang_of_dotted_name.
  rewrite basename_app by (cbn; exact He).
  rewrite all_chars_app. cbn. apply andb_false_r.
Qed.

Lemma lang_from_extension_is_None_witness :
  all_chars not_slash "py" = true
  ∧ _get_lang_from_filename ("/home/user/demo" +:+ "." +:+ "py") = None.
Proof.
  split; [reflexivity|].
  exact (lang_from_extension_is_None "/home/user/demo" "py" eq_refl).
Defined.

(** X6.  [_get_lang_from_filename] returns a language exactly when the
    last component of the path is one of the bare names [py], [hy],
    [pytb], [py3tb] (the whole path, or what follows its last slash);
    the language is then the one of that [case]. *)
Theorem lang_from_bare_name (filename lang : string) :
  _get_lang_from_filename filename = Some lang
  ↔ ∃ name, In (name, lang) lang_cases
            ∧ (filename = name ∨ ∃ d, filename = d +:+ "/" +:+ name).
Proof.
  split.
  - unfold _get_lang_from_filename. intros Hl.
    destruct (basename_spec filename) as [_ Hb].
    repeat match type of Hl with
           | context [String.eqb ?s ?n] =>
               let E := fresh "E" in
               destruct (String.eqb s n) eqn:E;
               [apply String.eqb_eq in E; injection Hl as <-;
                exists n; rewrite E in Hb; split; [cbn; tauto | exact Hb]|]
           end.
    discriminate.
  - intros [name [Hin Hf]].
    assert (Hb : basename filename = name).
    { assert (Hn : all_chars not_slash name = true).
      { cbn in Hin. destruct Hin as [[= <- _]|[[= <- _]|[[= <- _]|[[= <- _]|[]]]]];
          reflexivity. }
      destruct Hf as [->|[d ->]]; [|now apply basename_after_slash].
      unfold basename. now rewrite after_last_slash_none. }
    unfold _get_lang_from_filename. rewrite Hb.
    cbn in Hin. destruct Hin as [[= <- <-]|[[= <- <-]|[[= <- <-]|[[= <- <-]|[]]]]];
      reflexivity.
Qed.

Lemma lang_from_bare_name_witness :
  _get_lang_from_filename "/usr/bin/py" = Some "python".
Proof.
  apply (proj2 (lang_from_bare_name "/usr/bin/py" "python")).
  exists "py". split; [cbn; tauto|]. right. now exists "/usr/bin".
Defined.

(** ** The traceback hook *)

Section ExceptionHookProperties.

Context (exc : Type) (read : string -> outcome string)
        (format_exception : exc -> exc -> list frame -> Z -> list string)
        (highlight : string -> string -> string)
        (show_source : string -> (string -> list string) -> frame -> string -> Z ->
                       bool -> list string -> list string * outcome unit).

Local Abbreviation hook := (_exception_hook exc read format_exception highlight show_source).
Local Abbreviation loop := (source_loop read show_source).

Lemma source_loop_selected (bg : string) (lines_around : Z) (linenos : bool)
    (ignore : list string) (tb : list frame) (fr : frame) (stderr : list string) :
  List.find (selected ignore) tb = Some fr ->
  loop bg lines_around linenos ignore tb stderr
  = (stderr,
     Raise match read (co_filename fr) with
           | Raise e => e
           | Return _ => AttributeError "'NoneType' object has no attribute 'split'"
           end).
Proof.
  induction tb as [|f tb IH]; [discriminate|]. cbn [List.find source_loop].
  unfold selected at 1.
  destruct (_get_lang_from_filename (co_filename f)) as [lang|]; [|exact IH].
  destruct (nonempty lang && negb (existsb (endswith (co_filename f)) ignore));
    [|exact IH].
  intros [= <-]. unfold _read_file. now destruct (read (co_filename f)).
Qed.

Lemma source_loop_none (bg : string) (lines_around : Z) (linenos : bool)
    (ignore : list string) (tb : list frame) (stderr : list string) :
  List.find (selected ignore) tb = None ->
  loop bg lines_around linenos ignore tb stderr = (stderr, Return tt).
Proof.
  induction tb as [|f tb IH]; [reflexivity|]. cbn [List.find source_loop].
  unfold selected at 1.
  destruct (_get_lang_from_filename (co_filename f)) as [lang|]; [|exact IH].
  destruct (nonempty lang && negb (existsb (endswith (co_filename f)) ignore));
    [discriminate | exact IH].
Qed.

(** X7.  The hook never shows a source excerpt.  When the traceback has
    a frame whose file gets a language and is not ignored, the hook
    raises for the first such frame, before anything is written to
    [sys.stderr]: what opening or reading the file raised, or else
    [AttributeError], since [_read_file] returns [None] and [None] has
    no [split]. *)
Theorem exception_hook_raises_on_source_frame (exc_type exc_value : exc)
    (tb : list frame) (bg : string) (limit lines_around : Z) (linenos : bool)
    (ignore : list string) (stderr : list string) (fr : frame) :
  List.find (selected ignore) tb = Some fr ->
  hook exc_type exc_value tb bg limit lines_around linenos ignore stderr
  = (stderr,
     Raise match read (co_filename fr) with
           | Raise e => e
           | Return _ => AttributeError "'NoneType' object has no attribute 'split'"
           end).
Proof.
  intros Hf. unfold _exception_hook.
  now rewrite (source_loop_selected _ _ _ _ _ _ _ Hf).
Qed.

(** X8.  When no frame of the traceback gets a language, or every one
    that does is ignored, the hook writes exactly one text to
    [sys.stderr], the highlighted formatted exception, and returns the
    number of characters written. *)
Theorem exception_hook_writes_once (exc_type exc_value : exc)
    (tb : list frame) (bg : string) (limit lines_around : Z) (linenos : bool)
    (ignore : list string) (stderr : list string) :
  List.find (selected ignore) tb = None ->
  let out := highlight (String.concat "" (format_exception exc_type exc_value tb limit)) bg in
  hook exc_type exc_value tb bg limit lines_around linenos ignore stderr
  = ((stderr ++ [out])%list, Return (Z.of_nat (String.length out))).
Proof.
  intros Hf out. unfold _exception_hook.
  now rewrite (source_loop_none _ _ _ _ _ _ Hf).
Qed.

(** X9.  For a traceback all of whose files are named with an
    extension (as [.py] and [.hy] files are), the hook raises nothing
    and writes the highlighted formatted exception only, whatever
    [ignore] holds. *)
Theorem exception_hook_on_named_files (exc_type exc_value : exc)
    (tb : list frame) (bg : string) (limit lines_around : Z) (linenos : bool)
    (ignore : list string) (stderr : list string) :
  Forall (fun fr => ∃ p ext, all_chars not_slash ext = true
                            ∧ co_filename fr = p +:+ "." +:+ ext) tb ->
  let out := highlight (String.concat "" (format_exception exc_type exc_value tb limit)) bg in
  hook exc_type exc_value tb bg limit lines_around linenos ignore stderr
  = ((stderr ++ [out])%list, Return (Z.of_nat (String.length out))).
Proof.
  intros Hall out. unfold _exception_hook.
  rewrite source_loop_none; [reflexivity|].
  induction Hall as [|fr tb' [p [ext [He Efr]]] _ IH]; [reflexivity|].
  cbn [List.find]. unfold selected at 1.
  rewrite Efr, (lang_of_dotted_name (p +:+ "." +:+ ext)); [exact IH|].
  rewrite basename_app by (cbn; exact He).
  rewrite all_chars_app. cbn. apply andb_false_r.
Qed.

End ExceptionHookProperties.

Lemma exception_hook_raises_on_source_frame_witness :
  let fr := {| co_filename := "/usr/bin/py"; tb_lineno := 3 |} in
  let tb := [{| co_filename := "/home/user/demo.hy"; tb_lineno := 1 |}; fr] in
  List.find (selected []) tb = Some fr
  ∧ _exception_hook nat small_read (fun _ _ _ _ => ["Traceback"]) (fun s _ => s)
      (fun _ _ _ _ _ _ err => (err, Return tt)) 0 0 tb "dark" 5 2 true [] []
    = ([], Raise (AttributeError "'NoneType' object has no attribute 'split'")).
Proof.
  split; [reflexivity|].
  exact (exception_hook_raises_on_source_frame nat small_read
           (fun _ _ _ _ => ["Traceback"]) (fun s _ => s)
           (fun _ _ _ _ _ _ err => (err, Return tt)) 0 0
           [{| co_filename := "/home/user/demo.hy"; tb_lineno := 1 |};
            {| co_filename := "/usr/bin/py"; tb_lineno := 3 |}]
           "dark" 5 2 true [] [] {| co_filename := "/usr/bin/py"; tb_lineno := 3 |}
           eq_refl).
Defined.

Lemma exception_hook_writes_once_witness :
  let tb := [{| co_filename := "<stdin>"; tb_lineno := 1 |}] in
  List.find (selected []) tb = None
  ∧ _exception_hook nat small_read (fun _ _ _ _ => ["Trace"; "back"]) (fun s _ => s)
      (fun _ _ _ _ _ _ err => (err, Return tt)) 0 0 tb "dark" 5 2 true [] ["earlier"]
    = (["earlier"; "Traceback"], Return 9%Z).
Proof.
  split; [reflexivity|].
  exact (exception_hook_writes_once nat small_read
           (fun _ _ _ _ => ["Trace"; "back"]) (fun s _ => s)
           (fun _ _ _ _ _ _ err => (err, Return tt)) 0 0
           [{| co_filename := "<stdin>"; tb_lineno := 1 |}]
           "dark" 5 2 true [] ["earlier"] eq_refl).
Defined.

Lemma exception_hook_on_named_files_witness :
  let tb := [{| co_filename := "/home/user/demo.hy"; tb_lineno := 1 |}] in
  Forall (fun fr => ∃ p ext, all_chars not_slash ext = true
                            ∧ co_filename fr = p +:+ "." +:+ ext) tb
  ∧ _exception_hook nat small_read (fun _ _ _ _ => ["Trace"; "back"]) (fun s _ => s)
      (fun _ _ _ _ _ _ err => (err, Return tt)) 0 0 tb "dark" 5 2 true ["demo.hy"] []
    = (["Traceback"], Return 9%Z).
Proof.
  assert (H : Forall (fun fr => ∃ p ext, all_chars not_slash ext = true
                                        ∧ co_filename fr = p +:+ "." +:+ ext)
                     [{| co_filename := "/home/user/demo.hy"; tb_lineno := 1 |}]).
  { constructor; [|constructor]. exists "/home/user/demo", "hy". now split. }
  split; [exact H|].
  exact (exception_hook_on_named_files nat small_read
           (fun _ _ _ _ => ["Trace"; "back"]) (fun s _ => s)
           (fun _ _ _ _ _ _ err => (err, Return tt)) 0 0 _
           "dark" 5 2 true ["demo.hy"] [] H).
Defined.

(** ** The completer bridge *)

Lemma completions_from_matches (complete : string -> nat -> option string)
    (word : string) (ms : list string) (state fuel : nat) :
  (∀ i m, ms !! i = Some m -> complete word (state + i) = Some m) ->
  complete word (state + length ms) = None ->
  length ms < fuel ->
  completions_from complete fuel word state
  = Some (map (fun m => {| completion_text := m;
                           start_position := - Z.of_nat (String.length word) |}) ms).
Proof.
  revert state fuel.
  induction ms as [|m ms IH]; intros state fuel Hms Hend Hfuel;
    (destruct fuel as [|fuel]; [cbn in Hfuel; lia|]); cbn [completions_from].
  - cbn in Hend. rewrite Nat.add_0_r in Hend. now rewrite Hend.
  - pose proof (Hms 0 m eq_refl) as H0. rewrite Nat.add_0_r in H0. rewrite H0.
    rewrite (IH (S state) fuel).
    + reflexivity.
    + intros i x Hi. replace (S state + i) with (state + S i) by lia.
      now apply Hms.
    + replace (S state + length ms) with (state + length (m :: ms)) by (cbn; lia).
      exact Hend.
    + cbn in Hfuel. lia.
Qed.

(** X10.  [get_completions] asks the completer for the states 0, 1, 2,
    ... in turn and stops at the first [None]: when the completer
    answers [ms] for the first states and [None] for the next, the
    generator yields one completion per match, in that order, each
    replacing the whole word before the cursor
    ([start_position = -len(word)]), and then ends, whatever the
    completer would answer for later states. *)
Theorem get_completions_yields_matches (complete : string -> nat -> option string)
    (word : string) (ms : list string) (fuel : nat) :
  (∀ i m, ms !! i = Some m -> complete word i = Some m) ->
  complete word (length ms) = None ->
  length ms < fuel ->
  get_completions complete fuel word
  = Some (map (fun m => {| completion_text := m;
                           start_position := - Z.of_nat (String.length word) |}) ms).
Proof.
  intros Hms Hend Hfuel. unfold get_completions.
  now apply completions_from_matches.
Qed.

Lemma get_completions_yields_matches_witness :
  (∀ i m, ["print"; "property"] !! i = Some m -> small_complete "p" i = Some m)
  ∧ small_complete "p" 2 = None
  ∧ get_completions small_complete 3 "p"
    = Some [{| completion_text := "print"; start_position := -1 |};
            {| completion_text := "property"; start_position := -1 |}].
Proof.
  assert (H : ∀ i m, ["print"; "property"] !! i = Some m -> small_complete "p" i = Some m).
  { intros [|[|i]] m Hm; cbn in Hm; try discriminate; now injection Hm as <-. }
  split; [exact H|]. split; [reflexivity|].
  refine (get_completions_yields_matches small_complete "p" ["print"; "property"] 3
            H eq_refl _).
  cbn. lia.
Defined.

Lemma completions_from_unending (complete : string -> nat -> option string)
    (word : string) (fuel state : nat) :
  (∀ i, complete word i ≠ None) -> completions_from complete fuel word state = None.
Proof.
  intros Hc. revert state. induction fuel as [|fuel IH]; intros state; [reflexivity|].
  cbn. destruct (complete word state) eqn:E; [|now apply Hc in E].
  now rewrite IH.
Qed.

(** X11.  The loop of [get_completions] has no other exit: with a
    completer that answers a match for every state, the generator never
    ends, however long it is run. *)
Theorem get_completions_unending (complete : string -> nat -> option string)
    (word : string) (fuel : nat) :
  (∀ i, complete word i ≠ None) -> get_completions complete fuel word = None.
Proof. intros Hc. now apply completions_from_unending. Qed.

Lemma get_completions_unending_witness :
  (∀ i, (fun (w : string) (_ : nat) => Some w) "p" i ≠ None)
  ∧ get_completions (fun w _ => Some w) 50 "p" = None.
Proof.
  assert (H : ∀ i : nat, (fun (w : string) (_ : nat) => Some w) "p" i ≠ None)
    by discriminate.
  split; [exact H|].
  exact (get_completions_unending (fun w _ => Some w) "p" 50 H).
Defined.

(** ** The completer's namespace *)

Lemma fresh_not_allocated (h : store) (a : nat) (d : gmap string pyval) :
  h !! a = Some d -> fresh (dom h) ≠ a.
Proof.
  intros Ha E.
  apply (is_fresh (dom h)). rewrite E. apply elem_of_dom. eauto.
Qed.

(** X12.  A completer built on an empty dictionary does not share it:
    [namespace or {}] replaces an empty [namespace] by a new
    dictionary, so the caller's dictionary stays empty and a name bound
    in it later does not change [self.namespace].  Built on a
    dictionary with an entry, the completer keeps that very dictionary
    (as the library's completer leaves it) and sees later bindings. *)
Theorem completer_namespace_shared_iff_nonempty
    (Completer__init__ : gmap string pyval -> gmap string pyval)
    (h : store) (a : nat) (d : gmap string pyval) (key : string) (value : pyval) :
  h !! a = Some d ->
  let r := HyPTCompleter__init__ Completer__init__ h (Some a) in
  (d = ∅ -> snd r ≠ a
            ∧ fst r !! a = Some ∅
            ∧ fst r !! snd r = Some (Completer__init__ ∅)
            ∧ store_setitem (fst r) a key value !! snd r = fst r !! snd r)
  ∧ (d ≠ ∅ -> snd r = a
              ∧ fst r = <[a := Completer__init__ d]> h
              ∧ store_get (store_setitem (fst r) a key value) (snd r) key = Some value).
Proof.
  intros Ha. unfold HyPTCompleter__init__. rewrite Ha. unfold dict_truth.
  destruct (map_to_list d) as [|kv l] eqn:E; cbn [fst snd].
  - apply map_to_list_empty_iff in E. subst d.
    pose proof (fresh_not_allocated h a ∅ Ha) as Hne.
    split; [|congruence]. intros _.
    assert (Hnew : alter Completer__init__ (fresh (dom h)) (<[fresh (dom h) := ∅]> h)
                   !! fresh (dom h) = Some (Completer__init__ ∅)).
    { now rewrite lookup_alter_eq, lookup_insert_eq. }
    assert (Hold : alter Completer__init__ (fresh (dom h)) (<[fresh (dom h) := ∅]> h)
                   !! a = Some ∅).
    { rewrite lookup_alter_ne by exact Hne.
      now rewrite lookup_insert_ne by exact Hne. }
    repeat split; [exact Hne | exact Hold | exact Hnew |].
    unfold store_setitem. rewrite Hold. now rewrite lookup_insert_ne by congruence.
  - split.
    + intros ->. rewrite map_to_list_empty in E. discriminate.
    + intros _. split; [reflexivity|].
      assert (Hd : alter Completer__init__ a h = <[a := Completer__init__ d]> h).
      { apply map_eq. intros i. destruct (decide (a = i)) as [<-|Hi].
        - now rewrite lookup_alter_eq, lookup_insert_eq, Ha.
        - now rewrite lookup_alter_ne, lookup_insert_ne by exact Hi. }
      split; [exact Hd|]. rewrite Hd.
      unfold store_setitem, store_get. rewrite lookup_insert_eq.
      rewrite lookup_insert_eq. apply lookup_insert_eq.
Qed.

Lemma completer_namespace_shared_iff_nonempty_witness :
  let h : store := <[7 := ∅]> ∅ in
  let setup : gmap string pyval -> gmap string pyval := <["_hy_macros" := PyNone]> in
  h !! 7 = Some ∅
  ∧ snd (HyPTCompleter__init__ setup h (Some 7)) ≠ 7
  ∧ fst (HyPTCompleter__init__ setup h (Some 7)) !! 7 = Some ∅.
Proof.
  assert (Ha : (<[7 := ∅]> ∅ : store) !! 7 = Some ∅) by apply lookup_insert_eq.
  split; [exact Ha|].
  pose proof (proj1 (completer_namespace_shared_iff_nonempty
                       (<["_hy_macros" := PyNone]>) (<[7 := ∅]> ∅) 7 ∅ "x" PyNone Ha)
                    eq_refl) as [H1 [H2 _]].
  split; [exact H1 | exact H2].
Defined.
